(** * Anchor targets of the dental x-ray detector (dataset.py)

    A shallow embedding of [ToothImageDataset]: the anchor grid, the matching
    of anchors to ground-truth boxes, the regression targets and the sampling
    of anchor indices, followed by the properties proved about them.

    Numbers.  The program computes in IEEE floating point.  Finite values are
    modelled as exact rationals ([Q]), so rounding is idealised; the values
    that are not finite (the infinities and NaN), on which [parametrize]
    depends, are modelled explicitly by [npfloat]. *)

From Stdlib Require Import List Arith ZArith QArith Qminmax Lia Lqa Bool Permutation Sorted.
Import ListNotations.

(** ** Numbers *)

(** [x < y] on finite values, as a boolean. *)
Definition Qltb (x y : Q) : bool := negb (Qle_bool y x).

(** A floating-point value: finite, one of the two infinities, or NaN. *)
Inductive npfloat : Type :=
| Fin (q : Q)
| PInf
| NInf
| NaN.

Definition is_finite (v : npfloat) : bool :=
  match v with Fin _ => true | _ => false end.

Definition is_nan (v : npfloat) : bool :=
  match v with NaN => true | _ => false end.

Definition is_inf (v : npfloat) : bool :=
  match v with PInf | NInf => true | _ => false end.

(** Division of two finite values as numpy does it: a zero divisor gives an
    infinity of the sign of the dividend, and [0/0] gives NaN.  The divisors
    of this program are differences of finite values, hence never [-0.0]. *)
Definition np_div (a d : Q) : npfloat :=
  if Qeq_bool d 0 then
    if Qeq_bool a 0 then NaN else if Qltb 0 a then PInf else NInf
  else Fin (a / d).

(** [np.log]: [log 0 = -inf], the logarithm of a negative value (and of
    [-inf] and NaN) is NaN, [log inf = inf].  On a positive finite value the
    result is that of the logarithm [ln_pos] of the platform. *)
Definition np_log (ln_pos : Q -> Q) (v : npfloat) : npfloat :=
  match v with
  | Fin q => if Qeq_bool q 0 then NInf else if Qltb q 0 then NaN else Fin (ln_pos q)
  | PInf => PInf
  | NInf => NaN
  | NaN => NaN
  end.

(** The largest finite [float32], (2 - 2^-23) * 2^127. *)
Definition FLT_MAX : Q := inject_Z 340282346638528859811704183484516925440.

(** Storing a value into an array of dtype [float32]: a finite value beyond
    the range of the type becomes an infinity. *)
Definition to_float32 (v : npfloat) : npfloat :=
  match v with
  | Fin q => if Qltb FLT_MAX q then PInf
             else if Qltb q (- FLT_MAX) then NInf else Fin q
  | _ => v
  end.

(** [np.nan_to_num] on a [float32] array: NaN becomes [0], an infinity becomes
    the finite value of largest magnitude and of the same sign. *)
Definition nan_to_num (v : npfloat) : npfloat :=
  match v with
  | Fin q => Fin q
  | PInf => Fin FLT_MAX
  | NInf => Fin (- FLT_MAX)
  | NaN => Fin 0
  end.

(** ** Arrays *)

(** An array of shape [(W, H, A)] whose cells hold an [X]; a further axis
    lives in [X]. *)
Definition tensor3 (X : Type) : Type := list (list (list X)).

Definition map3 {X Y : Type} (f : X -> Y) (t : tensor3 X) : tensor3 Y :=
  map (map (map f)) t.

(** [t[i, j, n]] *)
Definition t3_get {X : Type} (t : tensor3 X) (i j n : nat) : option X :=
  match nth_error t i with
  | Some plane =>
      match nth_error plane j with
      | Some row => nth_error row n
      | None => None
      end
  | None => None
  end.

(** [t.reshape(-1)], in row-major order. *)
Definition flatten3 {X : Type} (t : tensor3 X) : list X :=
  concat (map (@concat X) t).

(** An array of shape [(w, h, a)] filled with [x]. *)
Definition full3 {X : Type} (w h a : nat) (x : X) : tensor3 X :=
  repeat (repeat (repeat x a) h) w.

Definition zip_with {X Y Z : Type} (f : X -> Y -> Z) (l : list X) (m : list Y) : list Z :=
  map (fun p => f (fst p) (snd p)) (combine l m).

(** Element-wise operation on two arrays of the same shape. *)
Definition zip3 {X Y Z : Type} (f : X -> Y -> Z) (t : tensor3 X) (u : tensor3 Y) : tensor3 Z :=
  zip_with (zip_with (zip_with f)) t u.

(** [t.shape[:3] == (w, h, a)] *)
Definition has_shape3 {X : Type} (t : tensor3 X) (w h a : nat) : Prop :=
  length t = w
  /\ Forall (fun plane => length plane = h /\ Forall (fun row => length row = a) plane) t.

(** The elements of [arr] at the positions where [mask] holds, in order. *)
Definition compress {X : Type} (mask : list bool) (arr : list X) : list X :=
  map fst (filter snd (combine arr mask)).

(** [arr[mask]] for a boolean [mask]: numpy raises [IndexError] when the mask
    and the array differ in length. *)
Definition bool_index {X : Type} (arr : list X) (mask : list bool) : option (list X) :=
  if Nat.eqb (length arr) (length mask)
  then Some (compress mask arr)
  else None.

Definition count_true (mask : list bool) : nat := length (filter (fun b => b) mask).

(** [np.amax] along an axis that is not empty: the running maximum. *)
Fixpoint amax_from (best : Q) (l : list Q) : Q :=
  match l with
  | [] => best
  | v :: t => amax_from (if Qltb best v then v else best) t
  end.

Definition np_amax (l : list Q) : Q :=
  match l with
  | [] => 0%Q
  | v :: t => amax_from v t
  end.

(** [np.argmax]: the index of the first occurrence of the maximum. *)
Fixpoint argmax_from (best_i : nat) (best : Q) (i : nat) (l : list Q) : nat :=
  match l with
  | [] => best_i
  | v :: t =>
      if Qltb best v then argmax_from i v (S i) t
      else argmax_from best_i best (S i) t
  end.

Definition np_argmax (l : list Q) : nat :=
  match l with
  | [] => 0%nat
  | v :: t => argmax_from 0 v 1 t
  end.

(** ** Boxes *)

(** A box [[x_min, y_min, x_max, y_max]] (indices 0 to 3 of the last axis). *)
Record box : Type := mkbox { x_min : Q; y_min : Q; x_max : Q; y_max : Q }.

Definition zero_box : box := mkbox 0 0 0 0.

Definition box_area (b : box) : Q := (x_max b - x_min b) * (y_max b - y_min b).

(** Modelled from the spec: [IoU] comes from the module [utils], which is not
    among the sources.  Intersection area over union area, the width and the
    height of the intersection clamped at [0]; the result is [0] when the
    boxes do not overlap or one of them has no area. *)
Definition IoU (a b : box) : Q :=
  let iw := Qmax 0 (Qmin (x_max a) (x_max b) - Qmax (x_min a) (x_min b)) in
  let ih := Qmax 0 (Qmin (y_max a) (y_max b) - Qmax (y_min a) (y_min b)) in
  let inter := iw * ih in
  let union := box_area a + box_area b - inter in
  if Qle_bool inter 0 then 0 else inter / union.

(** ** The class constants *)

Record Config : Type := mkConfig {
  INPUT_SIZE : Z * Z;
  OUTPUT_SIZE : nat * nat;
  RECEPTIVE_FIELD : Q;
  ANCHORS_WIDTH_RATIOS : list Q;
  ANCHORS_HEIGHT_RATIOS : list Q;
  NEGATIVE_THRESHOLD : Q;
  POSITIVE_THRESHOLD : Q;
  ANCHOR_SAMPLING_SIZE : nat
}.

Definition ToothImageDataset : Config := {|
  INPUT_SIZE := (1600%Z, 800%Z);
  OUTPUT_SIZE := (50%nat, 25%nat);
  RECEPTIVE_FIELD := 212;
  ANCHORS_WIDTH_RATIOS := [3 # 10; 1 # 2; 1];
  ANCHORS_HEIGHT_RATIOS := [3 # 10; 1 # 2; 1];
  NEGATIVE_THRESHOLD := 3 # 10;
  POSITIVE_THRESHOLD := 1 # 2;
  ANCHOR_SAMPLING_SIZE := 256
|}.

Definition Qnat (n : nat) : Q := inject_Z (Z.of_nat n).

Section Dataset.

Variable self : Config.

Definition OUTPUT_CELL_SIZE : Q :=
  inject_Z (fst (INPUT_SIZE self)) / Qnat (fst (OUTPUT_SIZE self)).

Definition NUMBER_ANCHORS_WIDE : nat := fst (OUTPUT_SIZE self).
Definition NUMBER_ANCHORS_HEIGHT : nat := snd (OUTPUT_SIZE self).

(** *** The anchor grid *)

Definition get_anchor_dimensions : list (Q * Q) :=
  flat_map (fun w => map (fun h => (w, h)) (ANCHORS_HEIGHT_RATIOS self))
           (ANCHORS_WIDTH_RATIOS self).

Definition anchor_number : nat := length get_anchor_dimensions.

Definition get_anchors_at_position (pos : nat * nat) : list box :=
  let (x, y) := pos in
  map (fun i =>
         let center_x := OUTPUT_CELL_SIZE * (Qnat x + (1 # 2)) in
         let center_y := OUTPUT_CELL_SIZE * (Qnat y + (1 # 2)) in
         let width := fst (nth i get_anchor_dimensions (0, 0)) * RECEPTIVE_FIELD self in
         let height := snd (nth i get_anchor_dimensions (0, 0)) * RECEPTIVE_FIELD self in
         let top_x := center_x - width / 2 in
         let top_y := center_y - height / 2 in
         mkbox top_x top_y (top_x + width) (top_y + height))
      (seq 0 anchor_number).

Definition get_image_anchors : tensor3 box :=
  map (fun i =>
         map (fun j => get_anchors_at_position (i, j))
             (seq 0 NUMBER_ANCHORS_HEIGHT))
      (seq 0 NUMBER_ANCHORS_WIDE).

(** *** Matching anchors and ground-truth boxes *)

Section Matcher.

(** [utils.IoU], whatever finite value it computes. *)
Variable iou : box -> box -> Q.

(** The overlap tensor: for each anchor, its IoU with every ground-truth
    box.  The program allocates it with the shape
    [(NUMBER_ANCHORS_WIDE, NUMBER_ANCHORS_HEIGHT, anchor_number)] of the class
    and fills it along the shape of [anchors]; the model follows it on
    anchors of that shape ([has_shape3]), the shape of [get_image_anchors]. *)
Definition overlaps (anchors : tensor3 box) (bboxes : list box) : tensor3 (list Q) :=
  map3 (fun a => map (fun b => iou a b) bboxes) anchors.

Definition max_iou_per_anchor (anchors : tensor3 box) (bboxes : list box) : tensor3 Q :=
  map3 np_amax (overlaps anchors bboxes).

Definition get_positive_negative_anchors (anchors : tensor3 box) (bboxes : list box)
  : tensor3 box * tensor3 bool * tensor3 bool :=
  match bboxes with
  | [] =>
      let ious := full3 NUMBER_ANCHORS_WIDE NUMBER_ANCHORS_HEIGHT anchor_number 0%Q in
      let positives := map3 (fun v => Qltb (POSITIVE_THRESHOLD self) v) ious in
      let negatives := map3 (fun v => Qltb v (NEGATIVE_THRESHOLD self)) ious in
      ([], positives, negatives)
  | _ :: _ =>
      let ious := overlaps anchors bboxes in
      let arg_truth_bbox := map3 np_argmax ious in
      let truth_bbox := map3 (fun k => nth k bboxes zero_box) arg_truth_bbox in
      let max_iou := max_iou_per_anchor anchors bboxes in
      let positives := map3 (fun v => Qltb (POSITIVE_THRESHOLD self) v) max_iou in
      let negatives := map3 (fun v => Qltb v (NEGATIVE_THRESHOLD self)) max_iou in
      (truth_bbox, positives, negatives)
  end.

End Matcher.

(** *** Regression targets *)

Section Parametrize.

(** The logarithm of the platform on positive finite values. *)
Variable ln_pos : Q -> Q.

(** The four formulas, for one anchor and its matched box. *)
Definition regression (a b : box) : list npfloat :=
  [ np_div (x_min b - x_min a) (x_max a - x_min a);
    np_div (y_min b - y_min a) (y_max a - y_min a);
    np_log ln_pos (np_div (x_max b - x_min b) (x_max a - x_min a));
    np_log ln_pos (np_div (y_max b - y_min b) (y_max a - y_min a)) ].

Definition zeros4 : list npfloat := [Fin 0; Fin 0; Fin 0; Fin 0].

(** [bboxes] is the tensor of matched boxes, aligned with [anchors], or
    the empty array.  On aligned tensors [zip3] is the element-wise
    computation of the program; numpy rejects shapes it cannot align. *)
Definition parametrize (anchors bboxes : tensor3 box) : tensor3 (list npfloat) :=
  match bboxes with
  | [] => map3 (fun _ => zeros4) anchors
  | _ :: _ =>
      let reg := zip3 (fun a b => map to_float32 (regression a b)) anchors bboxes in
      map3 (map nan_to_num) reg
  end.

End Parametrize.

(** *** Sampling *)

Section Sampler.

(** The state of the random generator, and [np.random.permutation], which
    returns its argument in some order and advances the generator. *)
Variable rng : Type.
Variable permutation : rng -> list nat -> list nat * rng.

Definition get_selected_indices_sample (g : rng) (indices : list nat)
           (positives negatives : tensor3 bool)
  : option (list nat * list nat * rng) :=
  match bool_index indices (flatten3 positives),
        bool_index indices (flatten3 negatives) with
  | Some positive_indices, Some negative_indices =>
      let (shuffled_positives, g1) := permutation g positive_indices in
      let random_positives :=
        firstn (ANCHOR_SAMPLING_SIZE self / 2) shuffled_positives in
      let (shuffled_negatives, g2) := permutation g1 negative_indices in
      let random_negatives :=
        firstn (ANCHOR_SAMPLING_SIZE self - length random_positives) shuffled_negatives in
      Some (random_positives ++ random_negatives, positive_indices, g2)
  | _, _ => None
  end.

(** [__getitem__] without the image: the regression targets, the positive
    mask, the sampled indices and all the positive indices. *)
Definition getitem (iou : box -> box -> Q) (ln_pos : Q -> Q) (g : rng) (bboxes : list box)
  : option (tensor3 (list npfloat) * tensor3 bool * list nat * list nat * rng) :=
  let anchors := get_image_anchors in
  let '(truth_bbox, positives, negatives) :=
    get_positive_negative_anchors iou anchors bboxes in
  let reg_target := parametrize ln_pos anchors truth_bbox in
  let indices := seq 0 (length (flatten3 anchors)) in
  match get_selected_indices_sample g indices positives negatives with
  | Some (selected_indices, positive_indices, g') =>
      Some (reg_target, positives, selected_indices, positive_indices, g')
  | None => None
  end.

End Sampler.

End Dataset.

(** ** The arrays returned by [__getitem__] *)

(** [a.reshape((-1, 2))] of a flat array: its elements two by two; numpy
    raises [ValueError] when their number is odd. *)
Fixpoint reshape_rows2 {X : Type} (l : list X) : option (list (list X)) :=
  match l with
  | [] => Some []
  | [_] => None
  | x :: y :: t =>
      match reshape_rows2 t with
      | Some rows => Some ([x; y] :: rows)
      | None => None
      end
  end.

(** What [__getitem__] returns beside the image: [reg_target.reshape((-1, 4))],
    [positives.astype(int).reshape((-1, 2))], the sampled indices and the
    positive indices. *)
Definition getitem_arrays (self : Config) (rng : Type)
           (permutation : rng -> list nat -> list nat * rng)
           (iou : box -> box -> Q) (ln_pos : Q -> Q) (g : rng) (bboxes : list box)
  : option (list (list npfloat) * list (list Z) * list nat * list nat * rng) :=
  match getitem self rng permutation iou ln_pos g bboxes with
  | Some (reg_target, positives, selected_indices, positive_indices, g') =>
      match reshape_rows2 (map Z.b2z (flatten3 positives)) with
      | Some labels =>
          Some (flatten3 reg_target, labels, selected_indices, positive_indices, g')
      | None => None
      end
  | None => None
  end.

(** ** Inputs for the examples *)

(** A generator: the state is a counter, and a permutation rotates the list
    by the counter. *)
Definition rotate_permutation (g : nat) (l : list nat) : list nat * nat :=
  let k := (g mod (S (length l)))%nat in
  (skipn k l ++ firstn k l, S g).

(** A stand-in for the logarithm, exact at [1]. *)
Definition ln_sample (q : Q) : Q := q - 1.

(** The ground-truth box that covers the square anchor (ratios [(1, 1)]) of
    the cell [(x, y)] of the grid of [ToothImageDataset]. *)
Definition box_on_cell (x y : nat) : box :=
  mkbox (Qnat (32 * x + 16) - 106) (Qnat (32 * y + 16) - 106)
        (Qnat (32 * x + 16) + 106) (Qnat (32 * y + 16) + 106).

(** Ten ground-truth boxes, far enough from each other. *)
Definition sample_bboxes : list box :=
  map (fun k => box_on_cell (5 + 8 * k) 6) (seq 0 5)
  ++ map (fun k => box_on_cell (5 + 8 * k) 18) (seq 0 5).

(** Small masks over six anchors: two positive, three negative, one ignored. *)
Definition sample_positives : tensor3 bool :=
  [[[true; false; false]; [false; true; false]]].
Definition sample_negatives : tensor3 bool :=
  [[[false; true; true]; [false; false; true]]].

(** * Properties *)

(** ** Comparisons *)

Lemma Qltb_lt (x y : Q) : Qltb x y = true <-> (x < y)%Q.
Proof.
  unfold Qltb. rewrite negb_true_iff. split; intro H.
  - apply Qnot_le_lt. intro Hle. apply Qle_bool_iff in Hle. congruence.
  - destruct (Qle_bool y x) eqn:E; [| reflexivity].
    apply Qle_bool_iff in E. exfalso. exact (Qlt_not_le _ _ H E).
Qed.

Lemma Qltb_ge (x y : Q) : Qltb x y = false <-> (y <= x)%Q.
Proof.
  unfold Qltb. rewrite negb_false_iff. apply Qle_bool_iff.
Qed.

Lemma Qeq_bool_false (x y : Q) : ~ x == y -> Qeq_bool x y = false.
Proof.
  intro Hne. destruct (Qeq_bool x y) eqn:E; [| reflexivity].
  apply Qeq_bool_iff in E. contradiction.
Qed.

(** ** Arrays *)


Lemma t3_get_map3 {X Y : Type} (f : X -> Y) (t : tensor3 X) (i j n : nat) :
  t3_get (map3 f t) i j n = option_map f (t3_get t i j n).
Proof.
  unfold t3_get, map3. rewrite nth_error_map.
  destruct (nth_error t i) as [plane |]; simpl; [| reflexivity].
  rewrite nth_error_map.
  destruct (nth_error plane j) as [row |]; simpl; [| reflexivity].
  apply nth_error_map.
Qed.

Lemma flatten3_map3 {X Y : Type} (f : X -> Y) (t : tensor3 X) :
  flatten3 (map3 f t) = map f (flatten3 t).
Proof.
  unfold flatten3, map3.
  induction t as [| plane t IH]; simpl; [reflexivity |].
  rewrite map_app, IH. f_equal.
  clear IH. induction plane as [| row plane IH]; simpl; [reflexivity |].
  rewrite map_app, IH. reflexivity.
Qed.

Lemma length_concat_uniform {X : Type} (ll : list (list X)) (k : nat) :
  Forall (fun l => length l = k) ll -> length (concat ll) = (length ll * k)%nat.
Proof.
  induction 1 as [| l ll Hl _ IH]; simpl; [reflexivity |].
  rewrite length_app, IH, Hl. reflexivity.
Qed.

Lemma length_flatten3_uniform {X : Type} (t : tensor3 X) (h a : nat) :
  Forall (fun plane => length plane = h /\ Forall (fun row => length row = a) plane) t ->
  length (flatten3 t) = (length t * h * a)%nat.
Proof.
  intro Ht. unfold flatten3.
  rewrite length_concat_uniform with (k := (h * a)%nat).
  - rewrite length_map. lia.
  - apply Forall_map. eapply Forall_impl; [| exact Ht].
    intros plane [Hh Hrows]. simpl.
    rewrite (length_concat_uniform plane a Hrows), Hh. reflexivity.
Qed.

(** ** The anchor grid *)

Section AnchorGrid.

Variable self : Config.

Lemma length_get_anchors_at_position (pos : nat * nat) :
  length (get_anchors_at_position self pos) = anchor_number self.
Proof.
  destruct pos as [x y]. unfold get_anchors_at_position.
  rewrite length_map, length_seq. reflexivity.
Qed.

Lemma length_get_image_anchors :
  length (get_image_anchors self) = NUMBER_ANCHORS_WIDE self.
Proof.
  unfold get_image_anchors. rewrite length_map, length_seq. reflexivity.
Qed.

Lemma get_image_anchors_uniform :
  Forall (fun plane => length plane = NUMBER_ANCHORS_HEIGHT self
                       /\ Forall (fun row => length row = anchor_number self) plane)
         (get_image_anchors self).
Proof.
  unfold get_image_anchors. apply Forall_map, Forall_forall. intros i _. split.
  - rewrite length_map, length_seq. reflexivity.
  - apply Forall_map, Forall_forall. intros j _.
    apply length_get_anchors_at_position.
Qed.

Lemma get_image_anchors_shape :
  has_shape3 (get_image_anchors self)
             (NUMBER_ANCHORS_WIDE self) (NUMBER_ANCHORS_HEIGHT self) (anchor_number self).
Proof.
  split; [apply length_get_image_anchors | apply get_image_anchors_uniform].
Qed.

Lemma length_flatten3_get_image_anchors :
  length (flatten3 (get_image_anchors self))
  = (NUMBER_ANCHORS_WIDE self * NUMBER_ANCHORS_HEIGHT self * anchor_number self)%nat.
Proof.
  rewrite (length_flatten3_uniform _ _ _ get_image_anchors_uniform).
  rewrite length_get_image_anchors. reflexivity.
Qed.

Lemma length_cross_product {X Y : Type} (l : list X) (m : list Y) :
  length (flat_map (fun w => map (fun h => (w, h)) m) l) = (length l * length m)%nat.
Proof.
  induction l as [| w l IH]; simpl; [reflexivity |].
  rewrite length_app, length_map, IH. reflexivity.
Qed.

Lemma nth_error_cross_product {X Y : Type} (l : list X) (m : list Y) (p q : nat) (w : X) (h : Y) :
  nth_error l p = Some w -> nth_error m q = Some h ->
  nth_error (flat_map (fun w => map (fun h => (w, h)) m) l) (p * length m + q) = Some (w, h).
Proof.
  revert p. induction l as [| w0 l IH]; intros p Hp Hq.
  - destruct p; discriminate.
  - destruct p as [| p]; simpl in *.
    + injection Hp as ->.
      rewrite nth_error_app1.
      * rewrite nth_error_map, Hq. reflexivity.
      * rewrite length_map. apply nth_error_Some. congruence.
    + rewrite nth_error_app2 by (rewrite length_map; lia).
      rewrite length_map.
      replace (length m + p * length m + q - length m)%nat with (p * length m + q)%nat by lia.
      apply IH; assumption.
Qed.



End AnchorGrid.


Lemma t3_get_bounds {X : Type} (t : tensor3 X) (h a i j n : nat) (x : X) :
  Forall (fun plane => length plane = h /\ Forall (fun row => length row = a) plane) t ->
  t3_get t i j n = Some x ->
  (i < length t /\ j < h /\ n < a)%nat.
Proof.
  intros Ht Hget. unfold t3_get in Hget.
  destruct (nth_error t i) as [plane |] eqn:Ei; [| discriminate].
  destruct (nth_error plane j) as [row |] eqn:Ej; [| discriminate].
  assert (Hi : (i < length t)%nat) by (apply nth_error_Some; congruence).
  rewrite Forall_forall in Ht.
  destruct (Ht plane (nth_error_In _ _ Ei)) as [Hh Hrows].
  assert (Hj : (j < length plane)%nat) by (apply nth_error_Some; congruence).
  rewrite Forall_forall in Hrows.
  pose proof (Hrows row (nth_error_In _ _ Ej)) as Ha.
  assert (Hn : (n < length row)%nat) by (apply nth_error_Some; congruence).
  repeat split; lia.
Qed.




(** ** Maximum and first index of the maximum *)

Lemma argmax_from_inv (l pre : list Q) (best_i : nat) (best : Q) :
  nth_error pre best_i = Some best ->
  (forall x, In x pre -> x <= best) ->
  (forall j x, (j < best_i)%nat -> nth_error pre j = Some x -> x < best) ->
  let k := argmax_from best_i best (length pre) l in
  let m := amax_from best l in
  nth_error (pre ++ l) k = Some m
  /\ (forall x, In x (pre ++ l) -> x <= m)
  /\ (forall j x, (j < k)%nat -> nth_error (pre ++ l) j = Some x -> x < m).
Proof.
  revert pre best_i best.
  induction l as [| v t IH]; intros pre best_i best Hbest Hmax Hfirst; simpl.
  - rewrite app_nil_r. auto.
  - assert (Hlt : (best_i < length pre)%nat) by (apply nth_error_Some; congruence).
    replace (pre ++ v :: t) with ((pre ++ [v]) ++ t) by (rewrite <- app_assoc; reflexivity).
    replace (S (length pre)) with (length (pre ++ [v])) by (rewrite length_app; simpl; lia).
    destruct (Qltb best v) eqn:E.
    + apply Qltb_lt in E.
      apply IH.
      * rewrite nth_error_app2 by lia. rewrite Nat.sub_diag. reflexivity.
      * intros x Hx. apply in_app_or in Hx. destruct Hx as [Hx | [<- | []]].
        -- apply Qlt_le_weak. eapply Qle_lt_trans; [apply Hmax, Hx | exact E].
        -- apply Qle_refl.
      * intros j x Hj Hx. rewrite nth_error_app1 in Hx by assumption.
        eapply Qle_lt_trans; [apply Hmax, (nth_error_In _ _ Hx) | exact E].
    + apply Qltb_ge in E.
      apply IH.
      * rewrite nth_error_app1 by assumption. exact Hbest.
      * intros x Hx. apply in_app_or in Hx. destruct Hx as [Hx | [<- | []]]; auto.
      * intros j x Hj Hx. rewrite nth_error_app1 in Hx by lia. eauto.
Qed.

(** [np.argmax] and [np.amax] on an axis that is not empty: the value at the
    index is the maximum, no value exceeds it, and every value before the
    index is strictly below it. *)
Lemma np_argmax_spec (l : list Q) :
  l <> [] ->
  nth_error l (np_argmax l) = Some (np_amax l)
  /\ (forall x, In x l -> x <= np_amax l)
  /\ (forall j x, (j < np_argmax l)%nat -> nth_error l j = Some x -> x < np_amax l).
Proof.
  destruct l as [| v t]; [congruence | intros _].
  apply (argmax_from_inv t [v] 0%nat v).
  - reflexivity.
  - intros x [<- | []]. apply Qle_refl.
  - intros j x Hj. lia.
Qed.

(** ** The matcher *)

Lemma nth_error_repeat_Some {X : Type} (x y : X) (len k : nat) :
  nth_error (repeat x len) k = Some y -> y = x /\ (k < len)%nat.
Proof.
  intro H. split.
  - apply nth_error_In in H. apply repeat_spec in H. exact H.
  - rewrite <- (repeat_length x len). apply nth_error_Some. congruence.
Qed.

Lemma t3_get_full3_Some {X : Type} (w h a i j n : nat) (x y : X) :
  t3_get (full3 w h a x) i j n = Some y ->
  y = x /\ (i < w)%nat /\ (j < h)%nat /\ (n < a)%nat.
Proof.
  unfold t3_get, full3. intro H.
  destruct (nth_error (repeat (repeat (repeat x a) h) w) i) as [plane |] eqn:Ei; [| discriminate].
  apply nth_error_repeat_Some in Ei. destruct Ei as [-> Hi].
  destruct (nth_error (repeat (repeat x a) h) j) as [row |] eqn:Ej; [| discriminate].
  apply nth_error_repeat_Some in Ej. destruct Ej as [-> Hj].
  apply nth_error_repeat_Some in H. tauto.
Qed.

Lemma t3_get_full3 {X : Type} (w h a i j n : nat) (x : X) :
  (i < w)%nat -> (j < h)%nat -> (n < a)%nat ->
  t3_get (full3 w h a x) i j n = Some x.
Proof.
  intros Hi Hj Hn. unfold t3_get, full3.
  rewrite nth_error_repeat by assumption.
  rewrite nth_error_repeat by assumption.
  apply nth_error_repeat. assumption.
Qed.

Lemma map3_full3 {X Y : Type} (f : X -> Y) (w h a : nat) (x : X) :
  map3 f (full3 w h a x) = full3 w h a (f x).
Proof.
  unfold map3, full3. rewrite !map_repeat. reflexivity.
Qed.

Section MatcherProperties.

Variable self : Config.
Variable iou : box -> box -> Q.

(** Both masks are thresholds of one tensor of maximal overlaps. *)
Lemma masks_threshold (anchors : tensor3 box) (bboxes : list box) :
  exists max_iou : tensor3 Q,
    snd (fst (get_positive_negative_anchors self iou anchors bboxes))
    = map3 (fun v => Qltb (POSITIVE_THRESHOLD self) v) max_iou
    /\ snd (get_positive_negative_anchors self iou anchors bboxes)
       = map3 (fun v => Qltb v (NEGATIVE_THRESHOLD self)) max_iou.
Proof.
  destruct bboxes as [| b bs]; simpl; eexists; split; reflexivity.
Qed.

(** The cell of an anchor in the outputs of the matcher, when there is a
    ground-truth box. *)
Lemma matcher_at (anchors : tensor3 box) (bboxes : list box) (i j n : nat) (a : box) :
  bboxes <> [] ->
  t3_get anchors i j n = Some a ->
  let ious := map (fun b => iou a b) bboxes in
  let '(truth_bbox, positives, negatives) :=
    get_positive_negative_anchors self iou anchors bboxes in
  t3_get truth_bbox i j n = Some (nth (np_argmax ious) bboxes zero_box)
  /\ t3_get (max_iou_per_anchor iou anchors bboxes) i j n = Some (np_amax ious)
  /\ t3_get positives i j n = Some (Qltb (POSITIVE_THRESHOLD self) (np_amax ious))
  /\ t3_get negatives i j n = Some (Qltb (np_amax ious) (NEGATIVE_THRESHOLD self)).
Proof.
  intros Hne Hget. destruct bboxes as [| b bs]; [congruence |].
  unfold get_positive_negative_anchors, max_iou_per_anchor, overlaps.
  rewrite !t3_get_map3, Hget. simpl. auto.
Qed.

End MatcherProperties.

(** No value is both above the positive threshold and below the negative
    one, the negative threshold being the smaller. *)
Lemma thresholds_exclusive (neg pos v : Q) :
  neg <= pos -> ~ (Qltb pos v = true /\ Qltb v neg = true).
Proof.
  intros Hle [Hp Hn]. apply Qltb_lt in Hp, Hn.
  apply (Qlt_irrefl v). eapply Qlt_le_trans; [exact Hn |].
  eapply Qle_trans; [exact Hle | apply Qlt_le_weak, Hp].
Qed.

Lemma masks_exclusive_flat (self : Config) (iou : box -> box -> Q)
      (anchors : tensor3 box) (bboxes : list box) (k : nat) :
  NEGATIVE_THRESHOLD self <= POSITIVE_THRESHOLD self ->
  let '(_, positives, negatives) := get_positive_negative_anchors self iou anchors bboxes in
  ~ (nth_error (flatten3 positives) k = Some true
     /\ nth_error (flatten3 negatives) k = Some true).
Proof.
  intro Hle.
  destruct (masks_threshold self iou anchors bboxes) as (T & Hp & Hn).
  destruct (get_positive_negative_anchors self iou anchors bboxes) as [[tb pos] neg].
  simpl in Hp, Hn. subst pos neg.
  rewrite !flatten3_map3, !nth_error_map.
  destruct (nth_error (flatten3 T) k) as [v |]; simpl; [| intros [H _]; discriminate].
  intros [Hp Hn]. apply (thresholds_exclusive _ _ v Hle).
  split; congruence.
Qed.

(** C7: with at least one ground-truth box, the maximal overlap of an
    anchor is the largest of its IoUs with the ground-truth boxes, and its
    matched box is the ground-truth box at the first index that reaches this
    maximum; the two masks are thresholds of this maximum. *)
Theorem matched_box_first_max (self : Config) (iou : box -> box -> Q)
        (anchors : tensor3 box) (bboxes : list box) (i j n : nat) (a : box) :
  has_shape3 anchors (NUMBER_ANCHORS_WIDE self) (NUMBER_ANCHORS_HEIGHT self)
             (anchor_number self) ->
  bboxes <> [] ->
  t3_get anchors i j n = Some a ->
  let '(truth_bbox, positives, negatives) :=
    get_positive_negative_anchors self iou anchors bboxes in
  exists (k : nat) (best : box),
    t3_get truth_bbox i j n = Some best
    /\ nth_error bboxes k = Some best
    /\ t3_get (max_iou_per_anchor iou anchors bboxes) i j n = Some (iou a best)
    /\ (forall b, In b bboxes -> iou a b <= iou a best)
    /\ (forall k' b', (k' < k)%nat -> nth_error bboxes k' = Some b' -> iou a b' < iou a best)
    /\ t3_get positives i j n = Some (Qltb (POSITIVE_THRESHOLD self) (iou a best))
    /\ t3_get negatives i j n = Some (Qltb (iou a best) (NEGATIVE_THRESHOLD self)).
Proof.
  intros _ Hne Hget.
  pose proof (matcher_at self iou anchors bboxes i j n a Hne Hget) as Hat.
  destruct (get_positive_negative_anchors self iou anchors bboxes) as [[tb pos] neg].
  cbv zeta in Hat. destruct Hat as (Htb & Hmax & Hpos & Hneg).
  set (ious := map (fun b => iou a b) bboxes) in *.
  assert (Hious : ious <> []).
  { unfold ious. destruct bboxes; [congruence | discriminate]. }
  destruct (np_argmax_spec ious Hious) as (Hk & Hub & Hfirst).
  set (k := np_argmax ious) in *.
  assert (Hlen : (k < length bboxes)%nat).
  { rewrite <- (length_map (fun b => iou a b) bboxes). apply nth_error_Some.
    fold ious. congruence. }
  destruct (nth_error bboxes k) as [best |] eqn:Hbest.
  2:{ apply nth_error_None in Hbest. lia. }
  assert (Hval : iou a best = np_amax ious).
  { unfold ious in Hk at 1. rewrite nth_error_map, Hbest in Hk. simpl in Hk. congruence. }
  exists k, best. rewrite Hval.
  rewrite (nth_error_nth _ _ zero_box Hbest) in Htb.
  repeat split; try assumption.
  - intros b Hb. apply Hub. unfold ious. apply in_map_iff. eauto.
  - intros k' b' Hk' Hb'. apply (Hfirst k'); [assumption |].
    unfold ious. rewrite nth_error_map, Hb'. reflexivity.
Qed.

(** C2: the thresholds are strict.  With at least one ground-truth box, an
    anchor whose maximal IoU is exactly the positive threshold is not
    positive, one whose maximal IoU is exactly the negative threshold is not
    negative, and an anchor whose maximal IoU lies between the thresholds,
    bounds included, is neither. *)
Theorem thresholds_strict (self : Config) (iou : box -> box -> Q)
        (anchors : tensor3 box) (bboxes : list box) (i j n : nat) (a : box) :
  has_shape3 anchors (NUMBER_ANCHORS_WIDE self) (NUMBER_ANCHORS_HEIGHT self)
             (anchor_number self) ->
  bboxes <> [] ->
  t3_get anchors i j n = Some a ->
  let max_iou := np_amax (map (fun b => iou a b) bboxes) in
  let '(_, positives, negatives) :=
    get_positive_negative_anchors self iou anchors bboxes in
  t3_get (max_iou_per_anchor iou anchors bboxes) i j n = Some max_iou
  /\ (max_iou == POSITIVE_THRESHOLD self -> t3_get positives i j n = Some false)
  /\ (max_iou == NEGATIVE_THRESHOLD self -> t3_get negatives i j n = Some false)
  /\ (NEGATIVE_THRESHOLD self <= max_iou <= POSITIVE_THRESHOLD self ->
      t3_get positives i j n = Some false /\ t3_get negatives i j n = Some false).
Proof.
  intros _ Hne Hget max_iou.
  pose proof (matcher_at self iou anchors bboxes i j n a Hne Hget) as Hat.
  destruct (get_positive_negative_anchors self iou anchors bboxes) as [[tb pos] neg].
  cbv zeta in Hat. destruct Hat as (_ & Hmax & Hpos & Hneg).
  fold max_iou in Hmax, Hpos, Hneg. rewrite Hpos, Hneg.
  split; [exact Hmax |]. split; [| split].
  - intro E. f_equal. apply Qltb_ge. rewrite E. apply Qle_refl.
  - intro E. f_equal. apply Qltb_ge. rewrite E. apply Qle_refl.
  - intros [Hlo Hhi]. split; f_equal; apply Qltb_ge; assumption.
Qed.

(** C9: the negative threshold not exceeding the positive one, no anchor
    is labelled both positive and negative, whether or not there are
    ground-truth boxes. *)
Theorem masks_disjoint (self : Config) (iou : box -> box -> Q)
        (anchors : tensor3 box) (bboxes : list box) :
  has_shape3 anchors (NUMBER_ANCHORS_WIDE self) (NUMBER_ANCHORS_HEIGHT self)
             (anchor_number self) ->
  NEGATIVE_THRESHOLD self <= POSITIVE_THRESHOLD self ->
  let '(_, positives, negatives) :=
    get_positive_negative_anchors self iou anchors bboxes in
  (forall i j n,
      ~ (t3_get positives i j n = Some true /\ t3_get negatives i j n = Some true))
  /\ (forall k,
         ~ (nth_error (flatten3 positives) k = Some true
            /\ nth_error (flatten3 negatives) k = Some true)).
Proof.
  intros _ Hle.
  pose proof (fun k => masks_exclusive_flat self iou anchors bboxes k Hle) as Hflat.
  destruct (masks_threshold self iou anchors bboxes) as (T & Hp & Hn).
  destruct (get_positive_negative_anchors self iou anchors bboxes) as [[tb pos] neg].
  simpl in Hp, Hn. split; [| exact Hflat].
  subst pos neg. intros i j n. rewrite !t3_get_map3.
  destruct (t3_get T i j n) as [v |]; simpl; [| intros [H _]; discriminate].
  intros [Hpos Hneg]. apply (thresholds_exclusive _ _ v Hle). split; congruence.
Qed.


(** ** Boolean masks *)

Section Compress.

Context {X : Type}.

Lemma compress_cons (m : bool) (mask : list bool) (a : X) (arr : list X) :
  compress (m :: mask) (a :: arr)
  = if m then a :: compress mask arr else compress mask arr.
Proof.
  unfold compress. simpl. destruct m; reflexivity.
Qed.

Lemma In_compress (mask : list bool) (arr : list X) (x : X) :
  In x (compress mask arr)
  <-> exists k, nth_error arr k = Some x /\ nth_error mask k = Some true.
Proof.
  revert mask. induction arr as [| a arr IH]; intros mask.
  - split; [intros [] | intros ([| k] & H & _); discriminate].
  - destruct mask as [| m mask].
    + split; [intros [] | intros ([| k] & _ & H); discriminate].
    + rewrite compress_cons. split.
      * intro Hin.
        assert (Hcases : (m = true /\ a = x) \/ In x (compress mask arr)).
        { destruct m; [destruct Hin as [-> | Hin]; auto | auto]. }
        destruct Hcases as [[-> ->] | Hin'].
        -- exists 0%nat. split; reflexivity.
        -- apply IH in Hin'. destruct Hin' as (k & Ha & Hm).
           exists (S k). split; assumption.
      * intros ([| k] & Ha & Hm); simpl in Ha, Hm.
        -- injection Ha as ->. injection Hm as ->. left. reflexivity.
        -- assert (Hin : In x (compress mask arr)) by (apply IH; eauto).
           destruct m; [right |]; exact Hin.
Qed.

Lemma length_compress (mask : list bool) (arr : list X) :
  length arr = length mask -> length (compress mask arr) = count_true mask.
Proof.
  revert mask. induction arr as [| a arr IH]; intros [| m mask] Hlen;
    try discriminate; [reflexivity |].
  rewrite compress_cons. unfold count_true. simpl.
  injection Hlen as Hlen. specialize (IH mask Hlen). unfold count_true in IH.
  destruct m; simpl; rewrite IH; reflexivity.
Qed.

Lemma compress_incl (mask : list bool) (arr : list X) (x : X) :
  In x (compress mask arr) -> In x arr.
Proof.
  intro H. apply In_compress in H. destruct H as (k & Hk & _).
  exact (nth_error_In _ _ Hk).
Qed.

Lemma NoDup_compress (mask : list bool) (arr : list X) :
  NoDup arr -> NoDup (compress mask arr).
Proof.
  intro Hnd. revert mask. induction Hnd as [| a arr Hnotin Hnd IH]; intros [| m mask];
    try constructor.
  rewrite compress_cons. destruct m; [| apply IH].
  constructor; [| apply IH].
  intro Hin. apply Hnotin. exact (compress_incl _ _ _ Hin).
Qed.

Lemma bool_index_Some (mask : list bool) (arr : list X) :
  length mask = length arr -> bool_index arr mask = Some (compress mask arr).
Proof.
  intro Hlen. unfold bool_index. rewrite Hlen, Nat.eqb_refl. reflexivity.
Qed.

End Compress.

Lemma In_compress_seq (mask : list bool) (len x : nat) :
  In x (compress mask (seq 0 len))
  <-> (x < len)%nat /\ nth_error mask x = Some true.
Proof.
  rewrite In_compress. split.
  - intros (k & Hk & Hm).
    assert (Hlt : (k < len)%nat).
    { rewrite <- (length_seq len 0). apply nth_error_Some. congruence. }
    rewrite nth_error_nth' with (d := 0%nat) in Hk by (rewrite length_seq; exact Hlt).
    rewrite seq_nth in Hk by exact Hlt. injection Hk as <-. auto.
  - intros [Hlt Hm]. exists x. split; [| exact Hm].
    rewrite nth_error_nth' with (d := 0%nat) by (rewrite length_seq; exact Hlt).
    rewrite seq_nth by exact Hlt. reflexivity.
Qed.

(** Selections by two masks that never hold together share no element of an
    array without repetition. *)
Lemma compress_disjoint {X : Type} (m1 m2 : list bool) (arr : list X) (x : X) :
  NoDup arr ->
  (forall k, ~ (nth_error m1 k = Some true /\ nth_error m2 k = Some true)) ->
  In x (compress m1 arr) -> In x (compress m2 arr) -> False.
Proof.
  intros Hnd Hex H1 H2.
  apply In_compress in H1, H2.
  destruct H1 as (k1 & Ha1 & Hm1). destruct H2 as (k2 & Ha2 & Hm2).
  assert (k1 = k2).
  { apply (proj1 (NoDup_nth_error arr) Hnd).
    - apply nth_error_Some. congruence.
    - congruence. }
  subst k2. apply (Hex k1). auto.
Qed.


(** ** The sampler *)

Lemma In_firstn {X : Type} (k : nat) (l : list X) (x : X) :
  In x (firstn k l) -> In x l.
Proof.
  intro H. rewrite <- (firstn_skipn k l). apply in_or_app. left. exact H.
Qed.

Lemma NoDup_firstn {X : Type} (k : nat) (l : list X) :
  NoDup l -> NoDup (firstn k l).
Proof.
  intro H. rewrite <- (firstn_skipn k l) in H.
  exact (NoDup_app_remove_r _ _ H).
Qed.

Section SamplerProperties.

Variable self : Config.
Variable rng : Type.
Variable permutation : rng -> list nat -> list nat * rng.

(** [np.random.permutation] returns its argument in some order. *)
Hypothesis permutation_ok : forall g l, Permutation (fst (permutation g l)) l.

(** One run of the sampler on masks as long as the array of indices. *)
Lemma sampler_run (g : rng) (indices : list nat) (positives negatives : tensor3 bool) :
  length (flatten3 positives) = length indices ->
  length (flatten3 negatives) = length indices ->
  let N := ANCHOR_SAMPLING_SIZE self in
  let positive_indices := compress (flatten3 positives) indices in
  let negative_indices := compress (flatten3 negatives) indices in
  exists pp pn g1 g2,
    permutation g positive_indices = (pp, g1)
    /\ permutation g1 negative_indices = (pn, g2)
    /\ Permutation pp positive_indices
    /\ Permutation pn negative_indices
    /\ get_selected_indices_sample self rng permutation g indices positives negatives
       = Some (firstn (N / 2) pp ++ firstn (N - length (firstn (N / 2) pp)) pn,
               positive_indices, g2).
Proof.
  intros Hp Hn N positive_indices negative_indices.
  unfold get_selected_indices_sample.
  rewrite (bool_index_Some _ _ Hp), (bool_index_Some _ _ Hn).
  fold positive_indices negative_indices.
  pose proof (permutation_ok g positive_indices) as Hpp.
  destruct (permutation g positive_indices) as [pp g1] eqn:E1.
  pose proof (permutation_ok g1 negative_indices) as Hpn.
  destruct (permutation g1 negative_indices) as [pn g2] eqn:E2.
  exists pp, pn, g1, g2. repeat split; assumption.
Qed.

End SamplerProperties.


(** C8: every sampled index is the index of an anchor of the positive mask
    or of the negative mask; with indices free of repetition, the index of an
    anchor that is in neither mask is not sampled. *)
Theorem sample_within_masks (self : Config) (rng : Type)
        (permutation : rng -> list nat -> list nat * rng)
        (g : rng) (indices : list nat) (positives negatives : tensor3 bool) :
  (forall g l, Permutation (fst (permutation g l)) l) ->
  length (flatten3 positives) = length indices ->
  length (flatten3 negatives) = length indices ->
  exists selected_indices positive_indices g',
    get_selected_indices_sample self rng permutation g indices positives negatives
    = Some (selected_indices, positive_indices, g')
    /\ (forall x, In x selected_indices ->
                  exists k, nth_error indices k = Some x
                            /\ (nth_error (flatten3 positives) k = Some true
                                \/ nth_error (flatten3 negatives) k = Some true))
    /\ (NoDup indices ->
        forall k x, nth_error indices k = Some x ->
                    nth_error (flatten3 positives) k = Some false ->
                    nth_error (flatten3 negatives) k = Some false ->
                    ~ In x selected_indices).
Proof.
  intros Hperm Hp Hn.
  destruct (sampler_run self rng permutation Hperm g indices positives negatives Hp Hn)
    as (pp & pn & g1 & g2 & _ & _ & Hpp & Hpn & Hrun).
  do 3 eexists. split; [exact Hrun |].
  assert (Hsel : forall x,
             In x (firstn (ANCHOR_SAMPLING_SIZE self / 2) pp
                   ++ firstn (ANCHOR_SAMPLING_SIZE self
                              - length (firstn (ANCHOR_SAMPLING_SIZE self / 2) pp)) pn) ->
             exists k, nth_error indices k = Some x
                       /\ (nth_error (flatten3 positives) k = Some true
                           \/ nth_error (flatten3 negatives) k = Some true)).
  { intros x Hx. apply in_app_or in Hx. destruct Hx as [Hx | Hx].
    - apply In_firstn in Hx. apply (Permutation_in _ Hpp) in Hx.
      apply In_compress in Hx. destruct Hx as (k & Hk & Hm). eauto.
    - apply In_firstn in Hx. apply (Permutation_in _ Hpn) in Hx.
      apply In_compress in Hx. destruct Hx as (k & Hk & Hm). eauto. }
  split; [exact Hsel |].
  intros Hnd k x Hk Hfp Hfn Hin.
  destruct (Hsel x Hin) as (k' & Hk' & Hmask).
  assert (k' = k).
  { apply (proj1 (NoDup_nth_error indices) Hnd).
    - apply nth_error_Some. congruence.
    - congruence. }
  subst k'. destruct Hmask; congruence.
Qed.

Lemma length_flatten3_full3 {X : Type} (w h a : nat) (x : X) :
  length (flatten3 (full3 w h a x)) = (w * h * a)%nat.
Proof.
  unfold full3.
  rewrite (length_flatten3_uniform _ h a).
  - rewrite repeat_length. reflexivity.
  - apply Forall_forall. intros plane Hplane. apply repeat_spec in Hplane. subst plane.
    split; [apply repeat_length |].
    apply Forall_forall. intros row Hrow. apply repeat_spec in Hrow. subst row.
    apply repeat_length.
Qed.

(** On the grid of the class the two masks have one entry per anchor. *)
Lemma masks_length (self : Config) (iou : box -> box -> Q) (bboxes : list box) :
  let r := get_positive_negative_anchors self iou (get_image_anchors self) bboxes in
  length (flatten3 (snd (fst r))) = length (flatten3 (get_image_anchors self))
  /\ length (flatten3 (snd r)) = length (flatten3 (get_image_anchors self)).
Proof.
  destruct bboxes as [| b bs]; simpl.
  - rewrite !map3_full3, !length_flatten3_full3, length_flatten3_get_image_anchors. auto.
  - unfold max_iou_per_anchor, overlaps. rewrite !flatten3_map3, !length_map. auto.
Qed.

Lemma rotate_permutation_ok (g : nat) (l : list nat) :
  Permutation (fst (rotate_permutation g l)) l.
Proof.
  unfold rotate_permutation. simpl.
  rewrite Permutation_app_comm, firstn_skipn. reflexivity.
Qed.

(** C4: with a budget of 256 and at least 128 positive and 128 negative
    anchors, the sample holds exactly 128 indices of positive anchors followed
    by exactly 128 indices of negative anchors, no index twice, every index
    below the number [W * H * num_shapes] of anchors; and the positive indices
    returned beside it are exactly the indices of the positive anchors, as
    many as there are positive anchors. *)
Theorem sample_balanced (self : Config) (iou : box -> box -> Q) (rng : Type)
        (permutation : rng -> list nat -> list nat * rng)
        (g : rng) (bboxes : list box) :
  (forall g l, Permutation (fst (permutation g l)) l) ->
  ANCHOR_SAMPLING_SIZE self = 256%nat ->
  NEGATIVE_THRESHOLD self <= POSITIVE_THRESHOLD self ->
  let anchors := get_image_anchors self in
  let r := get_positive_negative_anchors self iou anchors bboxes in
  let positives := snd (fst r) in
  let negatives := snd r in
  let indices := seq 0 (length (flatten3 anchors)) in
  (128 <= count_true (flatten3 positives))%nat ->
  (128 <= count_true (flatten3 negatives))%nat ->
  exists random_positives random_negatives positive_indices g',
    get_selected_indices_sample self rng permutation g indices positives negatives
    = Some (random_positives ++ random_negatives, positive_indices, g')
    /\ length random_positives = 128%nat
    /\ length random_negatives = 128%nat
    /\ (forall x, In x random_positives -> nth_error (flatten3 positives) x = Some true)
    /\ (forall x, In x random_negatives -> nth_error (flatten3 negatives) x = Some true)
    /\ NoDup (random_positives ++ random_negatives)
    /\ (forall x, In x (random_positives ++ random_negatives) ->
                  (x < NUMBER_ANCHORS_WIDE self * NUMBER_ANCHORS_HEIGHT self
                       * anchor_number self)%nat)
    /\ length positive_indices = count_true (flatten3 positives)
    /\ (forall x, In x positive_indices <-> nth_error (flatten3 positives) x = Some true).
Proof.
  intros Hperm HN Hthr anchors r positives negatives indices Hcp Hcn.
  destruct (masks_length self iou bboxes) as [Lp Ln].
  fold anchors r positives negatives in Lp, Ln.
  assert (Hex : forall k, ~ (nth_error (flatten3 positives) k = Some true
                             /\ nth_error (flatten3 negatives) k = Some true)).
  { intro k. pose proof (masks_exclusive_flat self iou anchors bboxes k Hthr) as H.
    fold r in H. unfold positives, negatives.
    destruct r as [[tb pos] neg]. exact H. }
  assert (Li : length indices = length (flatten3 anchors)) by apply length_seq.
  rewrite <- Li in Lp, Ln.
  destruct (sampler_run self rng permutation Hperm g indices positives negatives Lp Ln)
    as (pp & pn & g1 & g2 & _ & _ & Hpp & Hpn & Hrun).
  rewrite HN in Hrun. change (256 / 2)%nat with 128%nat in Hrun.
  set (pi := compress (flatten3 positives) indices) in *.
  set (ni := compress (flatten3 negatives) indices) in *.
  assert (Lpi : length pi = count_true (flatten3 positives)).
  { apply length_compress. symmetry. exact Lp. }
  assert (Lni : length ni = count_true (flatten3 negatives)).
  { apply length_compress. symmetry. exact Ln. }
  assert (Lrp : length (firstn 128 pp) = 128%nat).
  { rewrite length_firstn, (Permutation_length Hpp). lia. }
  rewrite Lrp in Hrun. change (256 - 128)%nat with 128%nat in Hrun.
  assert (Lrn : length (firstn 128 pn) = 128%nat).
  { rewrite length_firstn, (Permutation_length Hpn). lia. }
  assert (Hinp : forall x, In x (firstn 128 pp) -> In x pi).
  { intros x Hx. apply (Permutation_in _ Hpp). exact (In_firstn _ _ _ Hx). }
  assert (Hinn : forall x, In x (firstn 128 pn) -> In x ni).
  { intros x Hx. apply (Permutation_in _ Hpn). exact (In_firstn _ _ _ Hx). }
  assert (Hnd : NoDup indices) by apply seq_NoDup.
  exists (firstn 128 pp), (firstn 128 pn), pi, g2.
  split; [exact Hrun |].
  split; [exact Lrp |].
  split; [exact Lrn |].
  split.
  { intros x Hx. apply Hinp in Hx. apply In_compress_seq in Hx. tauto. }
  split.
  { intros x Hx. apply Hinn in Hx. apply In_compress_seq in Hx. tauto. }
  split.
  { apply NoDup_app.
    - apply NoDup_firstn. apply (Permutation_NoDup (Permutation_sym Hpp)).
      apply NoDup_compress. exact Hnd.
    - apply NoDup_firstn. apply (Permutation_NoDup (Permutation_sym Hpn)).
      apply NoDup_compress. exact Hnd.
    - intros x Hx1 Hx2.
      exact (compress_disjoint _ _ indices x Hnd Hex (Hinp x Hx1) (Hinn x Hx2)). }
  split.
  { intros x Hx. rewrite <- length_flatten3_get_image_anchors. fold anchors.
    apply in_app_or in Hx. destruct Hx as [Hx | Hx].
    - apply Hinp in Hx. apply In_compress_seq in Hx. tauto.
    - apply Hinn in Hx. apply In_compress_seq in Hx. tauto. }
  split; [exact Lpi |].
  intro x. unfold pi, indices. rewrite In_compress_seq. split; [tauto |].
  intro Hx. split; [| exact Hx].
  rewrite <- Li, <- Lp. apply nth_error_Some. congruence.
Qed.


(** ** Regression targets *)

Lemma nth_error_zip_with {X Y Z : Type} (f : X -> Y -> Z) (l : list X) (m : list Y) (k : nat) :
  nth_error (zip_with f l m) k
  = match nth_error l k, nth_error m k with
    | Some x, Some y => Some (f x y)
    | _, _ => None
    end.
Proof.
  unfold zip_with. revert m k.
  induction l as [| x l IH]; intros m k.
  - destruct k; reflexivity.
  - destruct m as [| y m].
    + destruct k as [| k]; simpl; [reflexivity |].
      destruct (nth_error l k); reflexivity.
    + destruct k as [| k]; simpl; [reflexivity | apply IH].
Qed.

Lemma t3_get_zip3 {X Y Z : Type} (f : X -> Y -> Z) (t : tensor3 X) (u : tensor3 Y)
      (i j n : nat) (x : X) (y : Y) :
  t3_get t i j n = Some x -> t3_get u i j n = Some y ->
  t3_get (zip3 f t u) i j n = Some (f x y).
Proof.
  unfold t3_get, zip3. intros Hx Hy.
  rewrite nth_error_zip_with.
  destruct (nth_error t i) as [p |]; [| discriminate].
  destruct (nth_error u i) as [q |]; [| discriminate].
  rewrite nth_error_zip_with.
  destruct (nth_error p j) as [r |]; [| discriminate].
  destruct (nth_error q j) as [s |]; [| discriminate].
  rewrite nth_error_zip_with, Hx, Hy. reflexivity.
Qed.

Lemma nan_to_num_finite (v : npfloat) : is_finite (nan_to_num v) = true.
Proof.
  destruct v; reflexivity.
Qed.

(** C1, as the program has it: every entry of the regression targets is
    finite (neither NaN nor an infinity), whatever the anchors and the matched
    boxes.  An entry of the computation that is NaN is returned as [0]; one
    that is an infinity is returned as the largest finite [float32] of its
    sign, so [log 0 = -inf] comes out as [- FLT_MAX]; a finite entry is
    returned as it is. *)
Theorem parametrize_finite (ln_pos : Q -> Q) (anchors bboxes : tensor3 box) :
  Forall (Forall (fun v => is_finite v = true /\ is_nan v = false /\ is_inf v = false))
         (flatten3 (parametrize ln_pos anchors bboxes))
  /\ (forall i j n a b,
         bboxes <> [] ->
         t3_get anchors i j n = Some a -> t3_get bboxes i j n = Some b ->
         exists row,
           t3_get (parametrize ln_pos anchors bboxes) i j n = Some row
           /\ Forall2 (fun computed returned =>
                         returned = match to_float32 computed with
                                    | Fin q => Fin q
                                    | NaN => Fin 0
                                    | PInf => Fin FLT_MAX
                                    | NInf => Fin (- FLT_MAX)
                                    end)
                      (regression ln_pos a b) row).
Proof.
  split.
  - unfold parametrize. destruct bboxes as [| p ps].
    + rewrite flatten3_map3. apply Forall_map, Forall_forall. intros a _.
      repeat constructor.
    + rewrite flatten3_map3. apply Forall_map, Forall_forall. intros row _.
      apply Forall_map, Forall_forall. intros v _. destruct v; auto.
  - intros i j n a b Hne Ha Hb. destruct bboxes as [| p ps]; [congruence |].
    unfold parametrize. rewrite t3_get_map3.
    rewrite (t3_get_zip3 _ _ _ _ _ _ _ _ Ha Hb). simpl.
    eexists. split; [reflexivity |].
    repeat constructor;
      match goal with |- nan_to_num ?v = _ => destruct v; reflexivity end.
Qed.

(** C1, as stated, fails: for the anchor [(0, 0, 10, 10)] matched to the box
    [(5, 5, 5, 8)] of width zero, the third formula is [log 0 = -inf], and the
    entry returned for it is [- FLT_MAX], which is not [0]. *)
Lemma parametrize_neg_inf_not_zero :
  exists (a b : box),
    (box_area b == 0)
    /\ forall ln_pos : Q -> Q,
      nth_error (regression ln_pos a b) 2 = Some NInf
      /\ exists row,
          t3_get (parametrize ln_pos [[[a]]] [[[b]]]) 0 0 0 = Some row
          /\ nth_error row 2 = Some (Fin (- FLT_MAX))
          /\ ~ (- FLT_MAX == 0).
Proof.
  exists (mkbox 0 0 10 10), (mkbox 5 5 5 8).
  split; [reflexivity |].
  intro ln_pos. split; [reflexivity |].
  eexists. split; [reflexivity |]. split; [reflexivity | discriminate].
Qed.

(** C3: without ground-truth boxes the matcher returns no matched box, a
    positive mask that is false everywhere and a negative mask that is true
    everywhere, and the regression targets are zero everywhere, whatever the
    logarithm: each anchor of the grid is negative, not positive, with target
    [(0, 0, 0, 0)]. *)
Theorem no_ground_truth (self : Config) (iou : box -> box -> Q) (ln_pos : Q -> Q)
        (anchors : tensor3 box) :
  0 <= POSITIVE_THRESHOLD self ->
  0 < NEGATIVE_THRESHOLD self ->
  let W := NUMBER_ANCHORS_WIDE self in
  let H := NUMBER_ANCHORS_HEIGHT self in
  let A := anchor_number self in
  get_positive_negative_anchors self iou anchors []
  = ([], full3 W H A false, full3 W H A true)
  /\ parametrize ln_pos anchors [] = map3 (fun _ => zeros4) anchors
  /\ (forall x y n a,
         t3_get (get_image_anchors self) x y n = Some a ->
         let '(truth_bbox, positives, negatives) :=
           get_positive_negative_anchors self iou (get_image_anchors self) [] in
         t3_get positives x y n = Some false
         /\ t3_get negatives x y n = Some true
         /\ t3_get (parametrize ln_pos (get_image_anchors self) truth_bbox) x y n
            = Some [Fin 0; Fin 0; Fin 0; Fin 0]).
Proof.
  intros Hpos Hneg W H A.
  assert (Hp : Qltb (POSITIVE_THRESHOLD self) 0 = false) by (apply Qltb_ge; exact Hpos).
  assert (Hn : Qltb 0 (NEGATIVE_THRESHOLD self) = true) by (apply Qltb_lt; exact Hneg).
  assert (Hrun : get_positive_negative_anchors self iou anchors []
                 = ([], full3 W H A false, full3 W H A true)).
  { unfold get_positive_negative_anchors. rewrite !map3_full3, Hp, Hn. reflexivity. }
  split; [exact Hrun |]. split; [reflexivity |].
  intros x y n a Hget.
  destruct (t3_get_bounds _ _ _ _ _ _ _ (get_image_anchors_uniform self) Hget)
    as (Hx & Hy & Hlt).
  rewrite length_get_image_anchors in Hx.
  unfold get_positive_negative_anchors. rewrite !map3_full3, Hp, Hn.
  split; [apply t3_get_full3; assumption |].
  split; [apply t3_get_full3; assumption |].
  unfold parametrize. rewrite t3_get_map3, Hget. reflexivity.
Qed.


(** * The statements at concrete inputs *)

(** The shapes of the class, in their order. *)
Example get_anchor_dimensions_ToothImageDataset :
  get_anchor_dimensions ToothImageDataset
  = [(3 # 10, 3 # 10); (3 # 10, 1 # 2); (3 # 10, 1); (1 # 2, 3 # 10); (1 # 2, 1 # 2);
     (1 # 2, 1); (1, 3 # 10); (1, 1 # 2); (1, 1)].
Proof. reflexivity. Qed.

Example grid_size_ToothImageDataset :
  length (flatten3 (get_image_anchors ToothImageDataset)) = (50 * 25 * 9)%nat.
Proof. vm_compute. reflexivity. Qed.

(** Among equal maxima the first index wins. *)
Example np_argmax_first :
  np_argmax [1 # 2; 1; 3 # 10; 1] = 1%nat /\ np_amax [1 # 2; 1; 3 # 10; 1] = 1.
Proof. split; reflexivity. Qed.

(** An anchor matched to a box equal to itself has the target [(0,0,0,0)]
    as soon as the logarithm of [1] is [0]. *)
Example parametrize_same_box :
  parametrize ln_sample [[[box_on_cell 3 3]]] [[[box_on_cell 3 3]]]
  = [[[  [Fin (0 / 212); Fin (0 / 212); Fin (212 / 212 - 1); Fin (212 / 212 - 1)] ]]].
Proof. reflexivity. Qed.

(** A matched box with [x_max < x_min] gives the logarithm of a negative
    number, NaN, returned as [0]; a zero-width anchor gives an infinity. *)
Example parametrize_nan_and_inf :
  parametrize ln_sample [[[mkbox 0 0 10 10; mkbox 0 0 0 10]]]
                        [[[mkbox 5 5 3 8; mkbox 5 5 8 8]]]
  = [[[ [Fin (5 / 10); Fin (5 / 10); Fin 0; Fin (3 / 10 - 1)];
        [Fin FLT_MAX; Fin (5 / 10); Fin FLT_MAX; Fin (3 / 10 - 1)] ]]].
Proof. reflexivity. Qed.


(** C7 on the grid of the class, with two equal ground-truth boxes on the
    cell [(10, 10)] and a third one next to them. *)
Lemma matched_box_first_max_witness :
  exists a,
    t3_get (get_image_anchors ToothImageDataset) 10 10 8 = Some a
    /\ let bboxes := [box_on_cell 11 10; box_on_cell 10 10; box_on_cell 10 10] in
       let '(truth_bbox, positives, negatives) :=
         get_positive_negative_anchors ToothImageDataset IoU
           (get_image_anchors ToothImageDataset) bboxes in
       exists (k : nat) (best : box),
         t3_get truth_bbox 10 10 8 = Some best
         /\ nth_error bboxes k = Some best
         /\ t3_get (max_iou_per_anchor IoU (get_image_anchors ToothImageDataset) bboxes)
                   10 10 8 = Some (IoU a best)
         /\ (forall b, In b bboxes -> IoU a b <= IoU a best)
         /\ (forall k' b', (k' < k)%nat -> nth_error bboxes k' = Some b' ->
                           IoU a b' < IoU a best)
         /\ t3_get positives 10 10 8
            = Some (Qltb (POSITIVE_THRESHOLD ToothImageDataset) (IoU a best))
         /\ t3_get negatives 10 10 8
            = Some (Qltb (IoU a best) (NEGATIVE_THRESHOLD ToothImageDataset)).
Proof.
  eexists. split; [vm_compute; reflexivity |].
  cbv zeta.
  apply (matched_box_first_max ToothImageDataset IoU).
  - apply get_image_anchors_shape.
  - discriminate.
  - vm_compute. reflexivity.
Defined.

(** The matcher on one anchor and three boxes, the last two equal to the
    anchor: the first of the two is the matched box. *)
Example matcher_tie :
  let bboxes := [box_on_cell 11 10; box_on_cell 10 10; box_on_cell 10 10] in
  np_argmax (map (fun b => IoU (box_on_cell 10 10) b) bboxes) = 1%nat
  /\ get_positive_negative_anchors ToothImageDataset IoU [[[box_on_cell 10 10]]] bboxes
     = ([[[box_on_cell 10 10]]], [[[true]]], [[[false]]]).
Proof. split; vm_compute; reflexivity. Qed.

(** C2 on the grid of the class with one ground-truth box on the cell
    [(10, 10)]: the anchor of shape [(1/2, 1)] of that cell has the maximal
    IoU [1/2] and is not positive, the anchor of shape [(3/10, 1)] has the
    maximal IoU [3/10] and is not negative. *)
Lemma thresholds_strict_witness :
  let anchors := get_image_anchors ToothImageDataset in
  let bboxes := [box_on_cell 10 10] in
  exists a5 a2,
    t3_get anchors 10 10 5 = Some a5
    /\ t3_get anchors 10 10 2 = Some a2
    /\ np_amax (map (fun b => IoU a5 b) bboxes) == 1 # 2
    /\ np_amax (map (fun b => IoU a2 b) bboxes) == 3 # 10
    /\ let '(_, positives, negatives) :=
         get_positive_negative_anchors ToothImageDataset IoU anchors bboxes in
       t3_get positives 10 10 5 = Some false
       /\ t3_get negatives 10 10 5 = Some false
       /\ t3_get positives 10 10 2 = Some false
       /\ t3_get negatives 10 10 2 = Some false.
Proof.
  cbv zeta. do 2 eexists.
  split; [vm_compute; reflexivity |].
  split; [vm_compute; reflexivity |].
  split; [vm_compute; reflexivity |].
  split; [vm_compute; reflexivity |].
  pose proof (thresholds_strict ToothImageDataset IoU
                (get_image_anchors ToothImageDataset) [box_on_cell 10 10]
                10 10 5 _ (get_image_anchors_shape ToothImageDataset)
                ltac:(discriminate) ltac:(vm_compute; reflexivity)) as T5.
  pose proof (thresholds_strict ToothImageDataset IoU
                (get_image_anchors ToothImageDataset) [box_on_cell 10 10]
                10 10 2 _ (get_image_anchors_shape ToothImageDataset)
                ltac:(discriminate) ltac:(vm_compute; reflexivity)) as T2.
  cbv zeta in T5, T2.
  destruct (get_positive_negative_anchors ToothImageDataset IoU
              (get_image_anchors ToothImageDataset) [box_on_cell 10 10])
    as [[tb pos] neg].
  destruct T5 as (_ & P5 & _ & B5). destruct T2 as (_ & _ & N2 & B2).
  split; [apply P5; vm_compute; reflexivity |].
  split; [apply B5; split; vm_compute; discriminate |].
  split; [apply B2; split; vm_compute; discriminate |].
  apply N2. vm_compute. reflexivity.
Defined.

(** C9 for the thresholds of the class, on its grid and the ten boxes. *)
Lemma masks_disjoint_witness :
  NEGATIVE_THRESHOLD ToothImageDataset <= POSITIVE_THRESHOLD ToothImageDataset
  /\ let '(_, positives, negatives) :=
       get_positive_negative_anchors ToothImageDataset IoU
         (get_image_anchors ToothImageDataset) sample_bboxes in
     (forall i j n,
         ~ (t3_get positives i j n = Some true /\ t3_get negatives i j n = Some true))
     /\ (forall k,
            ~ (nth_error (flatten3 positives) k = Some true
               /\ nth_error (flatten3 negatives) k = Some true)).
Proof.
  split; [discriminate |].
  apply (masks_disjoint ToothImageDataset IoU);
    [apply get_image_anchors_shape | discriminate].
Defined.

(** C3 for the thresholds of the class, on its grid. *)
Lemma no_ground_truth_witness :
  get_positive_negative_anchors ToothImageDataset IoU (get_image_anchors ToothImageDataset) []
  = ([], full3 50 25 9 false, full3 50 25 9 true)
  /\ parametrize ln_sample (get_image_anchors ToothImageDataset) []
     = map3 (fun _ => zeros4) (get_image_anchors ToothImageDataset).
Proof.
  destruct (no_ground_truth ToothImageDataset IoU ln_sample
              (get_image_anchors ToothImageDataset))
    as (Hm & Hp & _).
  - discriminate.
  - reflexivity.
  - split; [exact Hm | exact Hp].
Defined.

(** The sampler on six anchors, two of them positive, three negative and one
    ignored: the budget of 256 takes them all but the ignored one, the
    positives first. *)
Example sampler_small :
  get_selected_indices_sample ToothImageDataset nat rotate_permutation 1%nat
    (seq 0 6) sample_positives sample_negatives
  = Some ([4; 0] ++ [5; 1; 2], [0; 4], 3)%nat.
Proof. vm_compute. reflexivity. Qed.


(** C8 on these six anchors: the ignored anchor, of index 3, is not sampled. *)
Lemma sample_within_masks_witness :
  exists selected_indices positive_indices g',
    get_selected_indices_sample ToothImageDataset nat rotate_permutation 1%nat
      (seq 0 6) sample_positives sample_negatives
    = Some (selected_indices, positive_indices, g')
    /\ ~ In 3%nat selected_indices.
Proof.
  destruct (sample_within_masks ToothImageDataset nat rotate_permutation 1%nat (seq 0 6)
              sample_positives sample_negatives rotate_permutation_ok
              eq_refl eq_refl)
    as (sel & pi & g' & Hrun & _ & Hign).
  exists sel, pi, g'. split; [exact Hrun |].
  apply (Hign (seq_NoDup 6 0) 3%nat 3%nat); reflexivity.
Defined.

(** C4 on the grid of the class with the ten ground-truth boxes, which give
    130 positive anchors and more than ten thousand negative ones. *)
Lemma sample_balanced_witness :
  let anchors := get_image_anchors ToothImageDataset in
  let r := get_positive_negative_anchors ToothImageDataset IoU anchors sample_bboxes in
  (128 <= count_true (flatten3 (snd (fst r))))%nat
  /\ (128 <= count_true (flatten3 (snd r)))%nat
  /\ exists random_positives random_negatives positive_indices g',
      get_selected_indices_sample ToothImageDataset nat rotate_permutation 7%nat
        (seq 0 (length (flatten3 anchors))) (snd (fst r)) (snd r)
      = Some (random_positives ++ random_negatives, positive_indices, g')
      /\ length random_positives = 128%nat
      /\ length random_negatives = 128%nat
      /\ NoDup (random_positives ++ random_negatives)
      /\ length positive_indices = count_true (flatten3 (snd (fst r))).
Proof.
  cbv zeta.
  assert (Hcount :
            (let r := get_positive_negative_anchors ToothImageDataset IoU
                        (get_image_anchors ToothImageDataset) sample_bboxes in
             (128 <=? count_true (flatten3 (snd (fst r))))%nat
             && (128 <=? count_true (flatten3 (snd r)))%nat) = true)
    by (vm_compute; reflexivity).
  cbv zeta in Hcount. apply andb_prop in Hcount. destruct Hcount as [Hp Hn].
  apply Nat.leb_le in Hp, Hn.
  split; [exact Hp |]. split; [exact Hn |].
  destruct (sample_balanced ToothImageDataset IoU nat rotate_permutation 7%nat sample_bboxes
              rotate_permutation_ok eq_refl ltac:(discriminate) Hp Hn)
    as (rp & rn & pi & g' & Hrun & Lrp & Lrn & _ & _ & Hnd & _ & Lpi & _).
  exists rp, rn, pi, g'. repeat split; assumption.
Defined.

(** [__getitem__] on an image without ground-truth boxes: no positive index,
    a sample of 256 negative indices, and targets that are zero. *)
Example getitem_no_ground_truth :
  match getitem ToothImageDataset nat rotate_permutation IoU ln_sample 0%nat [] with
  | Some (reg_target, positives, selected_indices, positive_indices, _) =>
      positive_indices = []
      /\ length selected_indices = 256%nat
      /\ count_true (flatten3 positives) = 0%nat
      /\ forallb (forallb (fun v => match v with Fin q => Qeq_bool q 0 | _ => false end))
                 (flatten3 reg_target) = true
  | None => False
  end.
Proof. vm_compute. repeat split. Qed.


(** * Further properties *)

(** ** Flat indices *)

Lemma nth_error_concat_uniform {X : Type} (ll : list (list X)) (k i j : nat) :
  Forall (fun l => length l = k) ll ->
  (j < k)%nat ->
  nth_error (concat ll) (i * k + j)
  = match nth_error ll i with
    | Some l => nth_error l j
    | None => None
    end.
Proof.
  intros Hll Hj. revert i.
  induction Hll as [| l ll Hl _ IH]; intro i.
  - simpl. rewrite !nth_error_nil. reflexivity.
  - destruct i as [| i]; simpl.
    + apply nth_error_app1. lia.
    + rewrite nth_error_app2 by lia.
      replace (k + i * k + j - length l)%nat with (i * k + j)%nat by lia.
      apply IH.
Qed.

Lemma nth_error_flatten3 {X : Type} (t : tensor3 X) (w h a x y n : nat) :
  has_shape3 t w h a ->
  (y < h)%nat -> (n < a)%nat ->
  nth_error (flatten3 t) ((x * h + y) * a + n) = t3_get t x y n.
Proof.
  intros [_ Ht] Hy Hn. unfold flatten3, t3_get.
  replace ((x * h + y) * a + n)%nat with (x * (h * a) + (y * a + n))%nat by lia.
  rewrite (nth_error_concat_uniform _ (h * a)).
  - rewrite nth_error_map.
    destruct (nth_error t x) as [plane |] eqn:Ex; simpl; [| reflexivity].
    rewrite Forall_forall in Ht.
    destruct (Ht plane (nth_error_In _ _ Ex)) as [_ Hrows].
    apply nth_error_concat_uniform; assumption.
  - apply Forall_map. eapply Forall_impl; [| exact Ht].
    intros plane [Hh Hrows]. simpl.
    rewrite (length_concat_uniform plane a Hrows), Hh. reflexivity.
  - nia.
Qed.

(** A flat index below [w * h * a] is the index of one cell. *)
Lemma flat_index_decode (w h a k : nat) :
  (k < w * h * a)%nat ->
  let x := (k / (h * a))%nat in
  let y := ((k / a) mod h)%nat in
  let n := (k mod a)%nat in
  (x < w)%nat /\ (y < h)%nat /\ (n < a)%nat /\ k = ((x * h + y) * a + n)%nat.
Proof.
  intros Hk x y n.
  assert (Ha : a <> 0%nat) by (intros ->; lia).
  assert (Hh : h <> 0%nat) by (intros ->; lia).
  assert (Hy : (y < h)%nat) by (apply Nat.mod_upper_bound; exact Hh).
  assert (Hn : (n < a)%nat) by (apply Nat.mod_upper_bound; exact Ha).
  assert (Hx : (x < w)%nat).
  { apply Nat.Div0.div_lt_upper_bound. lia. }
  assert (Ek : k = ((x * h + y) * a + n)%nat).
  { unfold x, y, n.
    rewrite (Nat.mul_comm h a), <- Nat.Div0.div_div.
    pose proof (Nat.div_mod_eq k a) as E1.
    pose proof (Nat.div_mod_eq (k / a) h) as E2.
    nia. }
  auto.
Qed.

Lemma has_shape3_map3 {X Y : Type} (f : X -> Y) (t : tensor3 X) (w h a : nat) :
  has_shape3 t w h a -> has_shape3 (map3 f t) w h a.
Proof.
  intros [Hw Ht]. unfold map3. split; [rewrite length_map; exact Hw |].
  apply Forall_map. eapply Forall_impl; [| exact Ht].
  intros plane [Hh Hrows]. simpl. split; [rewrite length_map; exact Hh |].
  apply Forall_map. eapply Forall_impl; [| exact Hrows].
  intros row Hrow. simpl. rewrite length_map. exact Hrow.
Qed.

Lemma has_shape3_full3 {X : Type} (w h a : nat) (x : X) :
  has_shape3 (full3 w h a x) w h a.
Proof.
  unfold full3. split; [apply repeat_length |].
  apply Forall_forall. intros plane Hplane. apply repeat_spec in Hplane. subst plane.
  split; [apply repeat_length |].
  apply Forall_forall. intros row Hrow. apply repeat_spec in Hrow. subst row.
  apply repeat_length.
Qed.

(** The two masks have the shape the class allocates. *)
Lemma masks_shape (self : Config) (iou : box -> box -> Q)
      (anchors : tensor3 box) (bboxes : list box) :
  let W := NUMBER_ANCHORS_WIDE self in
  let H := NUMBER_ANCHORS_HEIGHT self in
  let A := anchor_number self in
  has_shape3 anchors W H A ->
  let r := get_positive_negative_anchors self iou anchors bboxes in
  has_shape3 (snd (fst r)) W H A /\ has_shape3 (snd r) W H A.
Proof.
  intros W H A Hs. destruct bboxes as [| b bs]; simpl.
  - rewrite !map3_full3. split; apply has_shape3_full3.
  - unfold max_iou_per_anchor, overlaps.
    split; repeat apply has_shape3_map3; exact Hs.
Qed.

(** X1: the flat index [k] that the sampler draws from addresses the anchor
    of the cell [(k / (H*A), (k / A) mod H)] and of shape index [k mod A]:
    the entry [k] of the flattened anchors and of each flattened mask is the
    entry of that cell, which exists; and [k] is [(x * H + y) * A + n]. *)
Theorem flat_index_addresses_cell (self : Config) (iou : box -> box -> Q)
        (bboxes : list box) (k : nat) :
  let W := NUMBER_ANCHORS_WIDE self in
  let H := NUMBER_ANCHORS_HEIGHT self in
  let A := anchor_number self in
  let anchors := get_image_anchors self in
  let r := get_positive_negative_anchors self iou anchors bboxes in
  (k < W * H * A)%nat ->
  let x := (k / (H * A))%nat in
  let y := ((k / A) mod H)%nat in
  let n := (k mod A)%nat in
  (x < W)%nat /\ (y < H)%nat /\ (n < A)%nat /\ k = ((x * H + y) * A + n)%nat
  /\ (exists a, t3_get anchors x y n = Some a /\ nth_error (flatten3 anchors) k = Some a)
  /\ nth_error (flatten3 (snd (fst r))) k = t3_get (snd (fst r)) x y n
  /\ nth_error (flatten3 (snd r)) k = t3_get (snd r) x y n.
Proof.
  intros W H A anchors r Hk x y n.
  destruct (flat_index_decode W H A k Hk) as (Hx & Hy & Hn & Ek).
  fold x y n in Hx, Hy, Hn, Ek.
  pose proof (get_image_anchors_shape self) as Hs. fold anchors W H A in Hs.
  destruct (masks_shape self iou anchors bboxes Hs) as [Hp Hng].
  fold W H A r in Hp, Hng.
  split; [exact Hx |]. split; [exact Hy |]. split; [exact Hn |]. split; [exact Ek |].
  split.
  - destruct (nth_error (flatten3 anchors) k) as [a |] eqn:Ea.
    + exists a. split; [| reflexivity].
      rewrite <- Ea, Ek. symmetry. apply (nth_error_flatten3 _ W H A); assumption.
    + apply nth_error_None in Ea. unfold anchors in Ea.
      rewrite length_flatten3_get_image_anchors in Ea. fold W H A in Ea. lia.
  - split; rewrite Ek at 1; apply (nth_error_flatten3 _ W H A); assumption.
Qed.

(** X2: on anchors of the shape of the class the masks have that shape
    whatever the ground-truth boxes, and the tensor of matched boxes has it as
    soon as there is a box; without boxes it is the empty array. *)
Theorem matcher_output_shapes (self : Config) (iou : box -> box -> Q)
        (anchors : tensor3 box) (bboxes : list box) :
  let W := NUMBER_ANCHORS_WIDE self in
  let H := NUMBER_ANCHORS_HEIGHT self in
  let A := anchor_number self in
  has_shape3 anchors W H A ->
  let '(truth_bbox, positives, negatives) :=
    get_positive_negative_anchors self iou anchors bboxes in
  has_shape3 positives W H A
  /\ has_shape3 negatives W H A
  /\ (bboxes = [] -> truth_bbox = [])
  /\ (bboxes <> [] -> has_shape3 truth_bbox W H A)
  /\ length (flatten3 positives) = (W * H * A)%nat
  /\ length (flatten3 negatives) = (W * H * A)%nat.
Proof.
  intros W H A Hs.
  destruct (masks_shape self iou anchors bboxes Hs) as [Hp Hn].
  assert (Ht : match bboxes with
               | [] => fst (fst (get_positive_negative_anchors self iou anchors bboxes)) = []
               | _ :: _ => has_shape3
                             (fst (fst (get_positive_negative_anchors self iou anchors bboxes)))
                             W H A
               end).
  { destruct bboxes as [| b bs]; simpl; [reflexivity |].
    unfold overlaps. repeat apply has_shape3_map3. exact Hs. }
  destruct (get_positive_negative_anchors self iou anchors bboxes) as [[tb pos] neg].
  simpl in Hp, Hn, Ht. fold W H A in Hp, Hn.
  split; [exact Hp |]. split; [exact Hn |].
  split; [intros ->; exact Ht |].
  split; [intro Hne; destruct bboxes; [congruence | exact Ht] |].
  destruct Hp as [Lp Fp], Hn as [Ln Fn].
  rewrite (length_flatten3_uniform _ _ _ Fp), (length_flatten3_uniform _ _ _ Fn), Lp, Ln.
  split; reflexivity.
Qed.

(** ** Failures *)

Lemma bool_index_None {X : Type} (arr : list X) (mask : list bool) :
  bool_index arr mask = None <-> length mask <> length arr.
Proof.
  unfold bool_index. destruct (Nat.eqb_spec (length arr) (length mask)) as [E | E].
  - split; [discriminate | intro H; congruence].
  - split; [intros _; congruence | reflexivity].
Qed.

(** X3: the sampler fails, as the boolean indexing does, exactly when one of
    the masks has not as many entries as the array of indices. *)
Theorem sampler_fails_iff (self : Config) (rng : Type)
        (permutation : rng -> list nat -> list nat * rng)
        (g : rng) (indices : list nat) (positives negatives : tensor3 bool) :
  get_selected_indices_sample self rng permutation g indices positives negatives = None
  <-> (length (flatten3 positives) <> length indices
       \/ length (flatten3 negatives) <> length indices).
Proof.
  unfold get_selected_indices_sample.
  destruct (bool_index indices (flatten3 positives)) as [pi |] eqn:Ep.
  - destruct (bool_index indices (flatten3 negatives)) as [ni |] eqn:En.
    + destruct (permutation g pi) as [pp g1]. destruct (permutation g1 ni) as [pn g2].
      split; [discriminate |].
      intros [H | H]; apply bool_index_None in H; congruence.
    + split; [| reflexivity]. intros _. right. apply bool_index_None. exact En.
  - split; [| reflexivity]. intros _. left. apply bool_index_None. exact Ep.
Qed.

(** ** The arrays returned by [__getitem__] *)

Lemma reshape_rows2_spec {X : Type} (fuel : nat) (l : list X) :
  (length l <= fuel)%nat ->
  match reshape_rows2 l with
  | Some rows =>
      Nat.even (length l) = true
      /\ length rows = (length l / 2)%nat
      /\ concat rows = l
      /\ forall r, (r < length rows)%nat ->
                   exists x y, nth_error rows r = Some [x; y]
                               /\ nth_error l (2 * r) = Some x
                               /\ nth_error l (2 * r + 1) = Some y
  | None => Nat.even (length l) = false
  end.
Proof.
  revert l. induction fuel as [| fuel IH]; intros l Hl.
  - destruct l; [| simpl in Hl; lia].
    simpl. repeat split. intros r Hr. lia.
  - destruct l as [| x [| y t]].
    + simpl. repeat split. intros r Hr. lia.
    + reflexivity.
    + specialize (IH t ltac:(simpl in Hl; lia)).
      change (reshape_rows2 (x :: y :: t))
        with (match reshape_rows2 t with
              | Some rows => Some ([x; y] :: rows)
              | None => None
              end).
      change (length (x :: y :: t)) with (S (S (length t))).
      destruct (reshape_rows2 t) as [rows |].
      * destruct IH as (He & Hlen & Hcat & Hrows).
        split; [exact He |].
        split.
        { simpl length. rewrite Hlen.
          replace (S (S (length t))) with (length t + 1 * 2)%nat by lia.
          rewrite Nat.div_add by lia. lia. }
        split; [simpl; rewrite Hcat; reflexivity |].
        intros [| r] Hr.
        -- exists x, y. repeat split.
        -- destruct (Hrows r ltac:(simpl in Hr; lia)) as (x' & y' & H1 & H2 & H3).
           exists x', y'. split; [exact H1 |].
           replace (2 * S r)%nat with (S (S (2 * r))) by lia.
           replace (S (S (2 * r)) + 1)%nat with (S (S (2 * r + 1))) by lia.
           split; assumption.
      * exact IH.
Qed.

(** The sampler does not fail on the masks of the matcher. *)
Lemma getitem_run (self : Config) (rng : Type)
      (permutation : rng -> list nat -> list nat * rng)
      (iou : box -> box -> Q) (ln_pos : Q -> Q) (g : rng) (bboxes : list box) :
  let anchors := get_image_anchors self in
  let r := get_positive_negative_anchors self iou anchors bboxes in
  exists selected_indices g',
    get_selected_indices_sample self rng permutation g
      (seq 0 (length (flatten3 anchors))) (snd (fst r)) (snd r)
    = Some (selected_indices, compress (flatten3 (snd (fst r)))
                                       (seq 0 (length (flatten3 anchors))), g')
    /\ getitem self rng permutation iou ln_pos g bboxes
       = Some (parametrize ln_pos anchors (fst (fst r)), snd (fst r), selected_indices,
               compress (flatten3 (snd (fst r))) (seq 0 (length (flatten3 anchors))), g').
Proof.
  intros anchors r.
  destruct (masks_length self iou bboxes) as [Lp Ln]. fold anchors r in Lp, Ln.
  unfold getitem. fold anchors r.
  destruct r as [[tb pos] neg]. cbn [fst snd] in *.
  unfold get_selected_indices_sample.
  rewrite (bool_index_Some (flatten3 pos)), (bool_index_Some (flatten3 neg))
    by (rewrite length_seq; assumption).
  destruct (permutation g _) as [pp g1]. destruct (permutation g1 _) as [pn g2].
  eexists. eexists. split; reflexivity.
Qed.

Lemma map3_map3 {X Y Z : Type} (f : X -> Y) (h : Y -> Z) (t : tensor3 X) :
  map3 h (map3 f t) = map3 (fun x => h (f x)) t.
Proof.
  unfold map3. rewrite map_map. apply map_ext. intro plane.
  rewrite map_map. apply map_ext. intro row. apply map_map.
Qed.

Lemma zip_with_map_r {X Y Z : Type} (f : X -> Y -> Z) (m : X -> Y) (l : list X) :
  zip_with f l (map m l) = map (fun x => f x (m x)) l.
Proof.
  unfold zip_with. induction l as [| x l IH]; simpl; [reflexivity |].
  rewrite IH. reflexivity.
Qed.

Lemma zip3_map3_r {X Y Z : Type} (f : X -> Y -> Z) (m : X -> Y) (t : tensor3 X) :
  zip3 f t (map3 m t) = map3 (fun x => f x (m x)) t.
Proof.
  unfold zip3, map3. rewrite zip_with_map_r. apply map_ext. intro plane.
  rewrite zip_with_map_r. apply map_ext. intro row.
  apply zip_with_map_r.
Qed.

(** The targets of anchors matched by a function of the anchor. *)
Lemma parametrize_map3 (ln_pos : Q -> Q) (m : box -> box) (t : tensor3 box) :
  parametrize ln_pos t (map3 m t)
  = map3 (fun a => map nan_to_num (map to_float32 (regression ln_pos a (m a)))) t.
Proof.
  destruct t as [| plane t]; [reflexivity |].
  unfold parametrize.
  change (map3 m (plane :: t)) with (map (map m) plane :: map3 m t).
  change (map (map m) plane :: map3 m t) with (map3 m (plane :: t)).
  rewrite zip3_map3_r, map3_map3. reflexivity.
Qed.

(** Whatever the ground-truth boxes, the targets on the grid are a function
    of the anchor, with four values. *)
Lemma getitem_targets (self : Config) (iou : box -> box -> Q) (ln_pos : Q -> Q)
      (bboxes : list box) :
  let anchors := get_image_anchors self in
  let r := get_positive_negative_anchors self iou anchors bboxes in
  exists F : box -> list npfloat,
    parametrize ln_pos anchors (fst (fst r)) = map3 F anchors
    /\ forall a, length (F a) = 4%nat.
Proof.
  intros anchors r. destruct bboxes as [| b bs].
  - exists (fun _ => zeros4). split; reflexivity.
  - exists (fun a => map nan_to_num
                         (map to_float32
                              (regression ln_pos a
                                 (nth (np_argmax (map (fun b' => iou a b') (b :: bs)))
                                      (b :: bs) zero_box)))).
    split; [| reflexivity].
    unfold r. cbn [get_positive_negative_anchors fst]. unfold overlaps.
    rewrite !map3_map3. apply parametrize_map3.
Qed.

(** X4: [__getitem__] raises on the reshaping of the positive mask into rows
    of two when the number [W * H * A] of anchors is odd.  When it is even,
    it returns one row of four targets per anchor, and [W * H * A / 2] rows of
    labels, the row [i] holding the labels, as 0 or 1, of the anchors of flat
    indices [2 * i] and [2 * i + 1], beside the outputs of the sampler. *)
Theorem getitem_arrays_spec (self : Config) (rng : Type)
        (permutation : rng -> list nat -> list nat * rng)
        (iou : box -> box -> Q) (ln_pos : Q -> Q) (g : rng) (bboxes : list box) :
  let W := NUMBER_ANCHORS_WIDE self in
  let H := NUMBER_ANCHORS_HEIGHT self in
  let A := anchor_number self in
  let anchors := get_image_anchors self in
  let r := get_positive_negative_anchors self iou anchors bboxes in
  let positives := snd (fst r) in
  (Nat.even (W * H * A) = false ->
   getitem_arrays self rng permutation iou ln_pos g bboxes = None)
  /\ (Nat.even (W * H * A) = true ->
      exists reg_target labels selected_indices positive_indices g',
        getitem_arrays self rng permutation iou ln_pos g bboxes
        = Some (reg_target, labels, selected_indices, positive_indices, g')
        /\ get_selected_indices_sample self rng permutation g
             (seq 0 (W * H * A)) positives (snd r)
           = Some (selected_indices, positive_indices, g')
        /\ length reg_target = (W * H * A)%nat
        /\ Forall (fun row => length row = 4%nat) reg_target
        /\ length labels = (W * H * A / 2)%nat
        /\ forall i, (i < W * H * A / 2)%nat ->
                     exists p q,
                       nth_error (flatten3 positives) (2 * i) = Some p
                       /\ nth_error (flatten3 positives) (2 * i + 1) = Some q
                       /\ nth_error labels i = Some [Z.b2z p; Z.b2z q]).
Proof.
  intros W H A anchors r positives.
  destruct (getitem_run self rng permutation iou ln_pos g bboxes)
    as (sel & g' & Hsample & Hrun).
  fold anchors r positives in Hsample, Hrun.
  destruct (getitem_targets self iou ln_pos bboxes) as (F & HF & HF4).
  fold anchors r in HF.
  destruct (masks_length self iou bboxes) as [Lp _]. fold anchors r positives in Lp.
  assert (La : length (flatten3 anchors) = (W * H * A)%nat)
    by apply length_flatten3_get_image_anchors.
  rewrite La in Lp, Hsample, Hrun.
  pose proof (reshape_rows2_spec (length (map Z.b2z (flatten3 positives)))
                (map Z.b2z (flatten3 positives)) (Nat.le_refl _)) as Hres.
  rewrite length_map, Lp in Hres.
  unfold getitem_arrays. rewrite Hrun.
  destruct (reshape_rows2 (map Z.b2z (flatten3 positives))) as [labels |].
  - destruct Hres as (Heven & Hlen & _ & Hrows).
    split; [congruence |]. intros _.
    do 5 eexists. split; [reflexivity |].
    split; [exact Hsample |].
    rewrite HF, flatten3_map3.
    split; [rewrite length_map; exact La |].
    split; [apply Forall_map, Forall_forall; intros a _; apply HF4 |].
    split; [exact Hlen |].
    intros i Hi. rewrite <- Hlen in Hi.
    destruct (Hrows i Hi) as (x & y & Hrow & Hx & Hy).
    rewrite nth_error_map in Hx, Hy.
    destruct (nth_error (flatten3 positives) (2 * i)) as [p |]; [| discriminate].
    destruct (nth_error (flatten3 positives) (2 * i + 1)) as [q |]; [| discriminate].
    simpl in Hx, Hy. injection Hx as <-. injection Hy as <-.
    exists p, q. auto.
  - split; [reflexivity | congruence].
Qed.

(** ** Labels and ground-truth boxes *)

Lemma np_amax_In (l : list Q) : l <> [] -> In (np_amax l) l.
Proof.
  intro Hne. destruct (np_argmax_spec l Hne) as (Hk & _).
  exact (nth_error_In _ _ Hk).
Qed.

Lemma np_amax_upper (l : list Q) (x : Q) : l <> [] -> In x l -> x <= np_amax l.
Proof.
  intros Hne Hx. destruct (np_argmax_spec l Hne) as (_ & Hub & _). auto.
Qed.

Lemma np_amax_Permutation (l l' : list Q) :
  l <> [] -> Permutation l l' -> np_amax l == np_amax l'.
Proof.
  intros Hne Hperm.
  assert (Hne' : l' <> []).
  { intros ->. apply Permutation_sym, Permutation_nil in Hperm. contradiction. }
  apply Qle_antisym.
  - apply np_amax_upper; [exact Hne' |].
    apply (Permutation_in _ Hperm), np_amax_In, Hne.
  - apply np_amax_upper; [exact Hne |].
    apply (Permutation_in _ (Permutation_sym Hperm)), np_amax_In, Hne'.
Qed.

Lemma Qltb_compat (x x' y y' : Q) : x == x' -> y == y' -> Qltb x y = Qltb x' y'.
Proof.
  intros Ex Ey. unfold Qltb. rewrite Ex, Ey. reflexivity.
Qed.

Lemma map3_ext {X Y : Type} (f h : X -> Y) (t : tensor3 X) :
  (forall x, f x = h x) -> map3 f t = map3 h t.
Proof.
  intro E. unfold map3. apply map_ext. intro plane. apply map_ext. intro row.
  apply map_ext. exact E.
Qed.

(** X5: with at least one ground-truth box, an anchor is positive exactly
    when its IoU with some ground-truth box exceeds the positive threshold, and
    negative exactly when its IoU with every ground-truth box is below the
    negative threshold. *)
Theorem labels_by_boxes (self : Config) (iou : box -> box -> Q)
        (anchors : tensor3 box) (bboxes : list box) (i j n : nat) (a : box) :
  has_shape3 anchors (NUMBER_ANCHORS_WIDE self) (NUMBER_ANCHORS_HEIGHT self)
             (anchor_number self) ->
  bboxes <> [] ->
  t3_get anchors i j n = Some a ->
  let '(_, positives, negatives) :=
    get_positive_negative_anchors self iou anchors bboxes in
  (t3_get positives i j n = Some true
   <-> exists b, In b bboxes /\ POSITIVE_THRESHOLD self < iou a b)
  /\ (t3_get negatives i j n = Some true
      <-> forall b, In b bboxes -> iou a b < NEGATIVE_THRESHOLD self).
Proof.
  intros _ Hne Hget.
  pose proof (matcher_at self iou anchors bboxes i j n a Hne Hget) as Hat.
  destruct (get_positive_negative_anchors self iou anchors bboxes) as [[tb pos] neg].
  cbv zeta in Hat. destruct Hat as (_ & _ & Hpos & Hneg).
  set (ious := map (fun b => iou a b) bboxes) in *.
  assert (Hious : ious <> []).
  { unfold ious. destruct bboxes; [congruence | discriminate]. }
  rewrite Hpos, Hneg. split.
  - split.
    + intro E. injection E as E. apply Qltb_lt in E.
      pose proof (np_amax_In ious Hious) as Hin. unfold ious in Hin at 2.
      apply in_map_iff in Hin. destruct Hin as (b & Eb & Hb).
      exists b. split; [exact Hb |]. rewrite Eb. exact E.
    + intros (b & Hb & Hlt). f_equal. apply Qltb_lt.
      eapply Qlt_le_trans; [exact Hlt |].
      apply np_amax_upper; [exact Hious |].
      unfold ious. apply in_map_iff. eauto.
  - split.
    + intros E b Hb. injection E as E. apply Qltb_lt in E.
      eapply Qle_lt_trans; [| exact E].
      apply np_amax_upper; [exact Hious |].
      unfold ious. apply in_map_iff. eauto.
    + intro Hall. f_equal. apply Qltb_lt.
      pose proof (np_amax_In ious Hious) as Hin. unfold ious in Hin at 2.
      apply in_map_iff in Hin. destruct Hin as (b & Eb & Hb).
      rewrite <- Eb. auto.
Qed.

(** X6: the two masks do not depend on the order of the ground-truth
    boxes. *)
Theorem labels_order_independent (self : Config) (iou : box -> box -> Q)
        (anchors : tensor3 box) (bboxes bboxes' : list box) :
  has_shape3 anchors (NUMBER_ANCHORS_WIDE self) (NUMBER_ANCHORS_HEIGHT self)
             (anchor_number self) ->
  Permutation bboxes bboxes' ->
  snd (fst (get_positive_negative_anchors self iou anchors bboxes))
  = snd (fst (get_positive_negative_anchors self iou anchors bboxes'))
  /\ snd (get_positive_negative_anchors self iou anchors bboxes)
     = snd (get_positive_negative_anchors self iou anchors bboxes').
Proof.
  intros _ Hperm.
  destruct bboxes as [| b bs].
  - apply Permutation_nil in Hperm. subst bboxes'. split; reflexivity.
  - destruct bboxes' as [| b' bs'].
    + apply Permutation_sym, Permutation_nil in Hperm. discriminate.
    + cbn [get_positive_negative_anchors fst snd].
      unfold max_iou_per_anchor, overlaps. rewrite !map3_map3.
      assert (E : forall a,
                 np_amax (map (fun x => iou a x) (b :: bs))
                 == np_amax (map (fun x => iou a x) (b' :: bs'))).
      { intro a. apply np_amax_Permutation; [discriminate |].
        apply Permutation_map. exact Hperm. }
      split; apply map3_ext; intro a; apply Qltb_compat;
        first [apply E | apply Qeq_refl].
Qed.

(** ** More on the sampler *)

Lemma compress_seq_sorted (mask : list bool) (start len : nat) :
  StronglySorted lt (compress mask (seq start len)).
Proof.
  revert mask start. induction len as [| len IH]; intros mask start.
  - destruct mask; constructor.
  - destruct mask as [| m mask]; [constructor |].
    simpl seq. rewrite compress_cons. destruct m; [| apply IH].
    constructor; [apply IH |].
    apply Forall_forall. intros x Hx. apply compress_incl, in_seq in Hx. lia.
Qed.

(** X7: the positive indices returned beside the sample for the indices
    [0 .. len-1] are in increasing order. *)
Theorem positive_indices_sorted (self : Config) (rng : Type)
        (permutation : rng -> list nat -> list nat * rng)
        (g : rng) (positives negatives : tensor3 bool) :
  length (flatten3 negatives) = length (flatten3 positives) ->
  exists selected_indices positive_indices g',
    get_selected_indices_sample self rng permutation g
      (seq 0 (length (flatten3 positives))) positives negatives
    = Some (selected_indices, positive_indices, g')
    /\ StronglySorted lt positive_indices
    /\ NoDup positive_indices.
Proof.
  intro Hlen. unfold get_selected_indices_sample.
  rewrite (bool_index_Some (flatten3 positives)), (bool_index_Some (flatten3 negatives))
    by (rewrite length_seq; congruence).
  destruct (permutation g _) as [pp g1]. destruct (permutation g1 _) as [pn g2].
  do 3 eexists. split; [reflexivity |].
  split; [apply compress_seq_sorted | apply NoDup_compress, seq_NoDup].
Qed.

(** X8: a class that fits its share of the budget is sampled whole.  When
    the positive anchors are at most [N / 2], the sampled positives are all
    the positive indices, in some order; and when the negative anchors are at
    most what the positives leave of [N], the sampled negatives are all the
    negative indices. *)
Theorem scarce_class_sampled_whole (self : Config) (rng : Type)
        (permutation : rng -> list nat -> list nat * rng)
        (g : rng) (indices : list nat) (positives negatives : tensor3 bool) :
  (forall g l, Permutation (fst (permutation g l)) l) ->
  length (flatten3 positives) = length indices ->
  length (flatten3 negatives) = length indices ->
  let N := ANCHOR_SAMPLING_SIZE self in
  exists random_positives random_negatives positive_indices g',
    get_selected_indices_sample self rng permutation g indices positives negatives
    = Some (random_positives ++ random_negatives, positive_indices, g')
    /\ ((count_true (flatten3 positives) <= N / 2)%nat ->
        Permutation random_positives positive_indices)
    /\ ((count_true (flatten3 negatives) <= N - length random_positives)%nat ->
        Permutation random_negatives (compress (flatten3 negatives) indices)).
Proof.
  intros Hperm Hp Hn N.
  destruct (sampler_run self rng permutation Hperm g indices positives negatives Hp Hn)
    as (pp & pn & g1 & g2 & _ & _ & Hpp & Hpn & Hrun).
  fold N in Hrun.
  do 4 eexists. split; [exact Hrun |]. split.
  - intro Hc. rewrite firstn_all2; [exact Hpp |].
    rewrite (Permutation_length Hpp), length_compress by (symmetry; exact Hp). exact Hc.
  - intro Hc. rewrite firstn_all2; [exact Hpn |].
    rewrite (Permutation_length Hpn), length_compress by (symmetry; exact Hn). exact Hc.
Qed.

(** ** More on the regression targets *)

Lemma np_div_pos (num d : Q) : 0 < d -> np_div num d = Fin (num / d).
Proof.
  intro Hd. unfold np_div. rewrite Qeq_bool_false; [reflexivity |].
  intro E. rewrite E in Hd. discriminate.
Qed.

Lemma to_float32_in_range (q : Q) :
  - FLT_MAX <= q -> q <= FLT_MAX -> to_float32 (Fin q) = Fin q.
Proof.
  intros Hlo Hhi. unfold to_float32.
  rewrite (proj2 (Qltb_ge FLT_MAX q) Hhi), (proj2 (Qltb_ge q (- FLT_MAX)) Hlo).
  reflexivity.
Qed.

Lemma parametrize_at (ln_pos : Q -> Q) (anchors bboxes : tensor3 box)
      (i j n : nat) (a b : box) :
  t3_get anchors i j n = Some a -> t3_get bboxes i j n = Some b ->
  t3_get (parametrize ln_pos anchors bboxes) i j n
  = Some (map nan_to_num (map to_float32 (regression ln_pos a b))).
Proof.
  intros Ha Hb. destruct bboxes as [| p ps].
  - unfold t3_get in Hb. rewrite nth_error_nil in Hb. discriminate.
  - unfold parametrize. rewrite t3_get_map3, (t3_get_zip3 _ _ _ _ _ _ _ _ Ha Hb).
    reflexivity.
Qed.

(** The logarithm of the ratio of a side of the box to a positive side of
    the anchor, as returned. *)
Lemma log_ratio_degenerate (ln_pos : Q -> Q) (side_b side_a : Q) :
  0 < side_a ->
  (side_b == 0 ->
   nan_to_num (to_float32 (np_log ln_pos (np_div side_b side_a))) = Fin (- FLT_MAX))
  /\ (side_b < 0 ->
      nan_to_num (to_float32 (np_log ln_pos (np_div side_b side_a))) = Fin 0).
Proof.
  intro Ha. rewrite (np_div_pos _ _ Ha). unfold np_log. split.
  - intro E.
    assert (Ez : side_b / side_a == 0) by (rewrite E; unfold Qdiv; ring).
    apply Qeq_bool_iff in Ez. rewrite Ez. reflexivity.
  - intro Hneg.
    assert (Hq : side_b / side_a < 0).
    { unfold Qdiv. setoid_replace 0 with (0 * / side_a) by ring.
      apply Qmult_lt_compat_r; [apply Qinv_lt_0_compat; exact Ha | exact Hneg]. }
    rewrite Qeq_bool_false.
    + rewrite (proj2 (Qltb_lt _ _) Hq). reflexivity.
    + intro E. rewrite E in Hq. discriminate.
Qed.

(** X9: for an anchor of positive width and height, a matched box of width
    zero gets the target [dw = - FLT_MAX] and a matched box with
    [x_max < x_min] gets [dw = 0]; likewise for the height and [dh]. *)
Theorem degenerate_box_targets (ln_pos : Q -> Q) (anchors bboxes : tensor3 box)
        (i j n : nat) (a b : box) :
  t3_get anchors i j n = Some a ->
  t3_get bboxes i j n = Some b ->
  0 < x_max a - x_min a ->
  0 < y_max a - y_min a ->
  exists dx dy dw dh,
    t3_get (parametrize ln_pos anchors bboxes) i j n = Some [dx; dy; dw; dh]
    /\ (x_max b == x_min b -> dw = Fin (- FLT_MAX))
    /\ (x_max b < x_min b -> dw = Fin 0)
    /\ (y_max b == y_min b -> dh = Fin (- FLT_MAX))
    /\ (y_max b < y_min b -> dh = Fin 0).
Proof.
  intros Ha Hb Hw Hh.
  rewrite (parametrize_at ln_pos _ _ _ _ _ _ _ Ha Hb).
  destruct (log_ratio_degenerate ln_pos (x_max b - x_min b) _ Hw) as [Wz Wn].
  destruct (log_ratio_degenerate ln_pos (y_max b - y_min b) _ Hh) as [Hz Hn].
  do 4 eexists. split; [reflexivity |].
  split; [intro E; apply Wz; lra |].
  split; [intro E; apply Wn; lra |].
  split; [intro E; apply Hz; lra |].
  intro E; apply Hn; lra.
Qed.

Lemma FLT_MAX_pos : 0 < FLT_MAX.
Proof. reflexivity. Qed.

(** X10: an anchor of positive width and height matched to a box equal to
    itself gets four finite targets that are zero, for a logarithm that is
    zero at one. *)
Theorem same_box_zero_target (ln_pos : Q -> Q) (anchors bboxes : tensor3 box)
        (i j n : nat) (a : box) :
  (forall q, q == 1 -> ln_pos q == 0) ->
  t3_get anchors i j n = Some a ->
  t3_get bboxes i j n = Some a ->
  0 < x_max a - x_min a ->
  0 < y_max a - y_min a ->
  exists dx dy dw dh,
    t3_get (parametrize ln_pos anchors bboxes) i j n
    = Some [Fin dx; Fin dy; Fin dw; Fin dh]
    /\ dx == 0 /\ dy == 0 /\ dw == 0 /\ dh == 0.
Proof.
  intros Hln Ha Hb Hw Hh.
  rewrite (parametrize_at ln_pos _ _ _ _ _ _ _ Ha Hb).
  unfold regression. rewrite !np_div_pos by assumption.
  pose proof FLT_MAX_pos as HM.
  assert (Wne : ~ x_max a - x_min a == 0) by (intro E; rewrite E in Hw; discriminate).
  assert (Hne : ~ y_max a - y_min a == 0) by (intro E; rewrite E in Hh; discriminate).
  assert (Ex : (x_min a - x_min a) / (x_max a - x_min a) == 0) by (field; exact Wne).
  assert (Ey : (y_min a - y_min a) / (y_max a - y_min a) == 0) by (field; exact Hne).
  assert (Ew1 : (x_max a - x_min a) / (x_max a - x_min a) == 1) by (field; exact Wne).
  assert (Eh1 : (y_max a - y_min a) / (y_max a - y_min a) == 1) by (field; exact Hne).
  pose proof (Hln _ Ew1) as Ew. pose proof (Hln _ Eh1) as Eh.
  unfold np_log.
  rewrite (Qeq_bool_false ((x_max a - x_min a) / (x_max a - x_min a)) 0)
    by (rewrite Ew1; discriminate).
  rewrite (Qeq_bool_false ((y_max a - y_min a) / (y_max a - y_min a)) 0)
    by (rewrite Eh1; discriminate).
  rewrite (proj2 (Qltb_ge ((x_max a - x_min a) / (x_max a - x_min a)) 0))
    by (rewrite Ew1; discriminate).
  rewrite (proj2 (Qltb_ge ((y_max a - y_min a) / (y_max a - y_min a)) 0))
    by (rewrite Eh1; discriminate).
  cbn [map].
  rewrite !to_float32_in_range;
    try (first [rewrite Ex | rewrite Ey | rewrite Ew | rewrite Eh]; lra).
  do 4 eexists. split; [reflexivity |]. auto.
Qed.


(** ** More on the shapes *)

(** X12: the shape of index [n] pairs the width ratio of index
    [n / |height ratios|] with the height ratio of index
    [n mod |height ratios|]. *)
Theorem shape_index_decode (self : Config) (n : nat) :
  (n < anchor_number self)%nat ->
  let hrs := ANCHORS_HEIGHT_RATIOS self in
  let wrs := ANCHORS_WIDTH_RATIOS self in
  (n / length hrs < length wrs)%nat
  /\ (n mod length hrs < length hrs)%nat
  /\ nth_error (get_anchor_dimensions self) n
     = Some (nth (n / length hrs) wrs 0, nth (n mod length hrs) hrs 0).
Proof.
  intros Hn hrs wrs.
  unfold anchor_number, get_anchor_dimensions in Hn.
  rewrite length_cross_product in Hn. fold hrs wrs in Hn.
  assert (Hh : length hrs <> 0%nat) by (intro E; rewrite E in Hn; lia).
  assert (Hq : (n mod length hrs < length hrs)%nat) by (apply Nat.mod_upper_bound; exact Hh).
  assert (Hp : (n / length hrs < length wrs)%nat).
  { apply Nat.Div0.div_lt_upper_bound. lia. }
  split; [exact Hp |]. split; [exact Hq |].
  pose proof (Nat.div_mod_eq n (length hrs)) as E.
  replace n with (n / length hrs * length hrs + n mod length hrs)%nat at 1 by lia.
  apply nth_error_cross_product; apply nth_error_nth'; assumption.
Qed.

(** ** Composition *)

(** X13: the matched box of a positive anchor is a ground-truth box whose
    IoU with the anchor exceeds the positive threshold. *)
Theorem positive_anchor_matched_box (self : Config) (iou : box -> box -> Q)
        (anchors : tensor3 box) (bboxes : list box) (i j n : nat) (a : box) :
  has_shape3 anchors (NUMBER_ANCHORS_WIDE self) (NUMBER_ANCHORS_HEIGHT self)
             (anchor_number self) ->
  t3_get anchors i j n = Some a ->
  let '(truth_bbox, positives, _) :=
    get_positive_negative_anchors self iou anchors bboxes in
  t3_get positives i j n = Some true ->
  0 <= POSITIVE_THRESHOLD self ->
  exists b,
    t3_get truth_bbox i j n = Some b
    /\ In b bboxes
    /\ POSITIVE_THRESHOLD self < iou a b.
Proof.
  intros _ Hget.
  destruct bboxes as [| b0 bs].
  - cbn [get_positive_negative_anchors]. rewrite map3_full3. intros Hpos Hthr.
    apply t3_get_full3_Some in Hpos. destruct Hpos as [Hpos _].
    symmetry in Hpos. apply Qltb_lt in Hpos.
    exfalso. exact (Qlt_not_le _ _ Hpos Hthr).
  - pose proof (matcher_at self iou anchors (b0 :: bs) i j n a ltac:(discriminate) Hget)
      as Hat.
    destruct (get_positive_negative_anchors self iou anchors (b0 :: bs)) as [[tb pos] neg].
    cbv zeta in Hat. destruct Hat as (Htb & _ & Hpos & _).
    intros Htrue _. rewrite Hpos in Htrue. injection Htrue as Htrue.
    apply Qltb_lt in Htrue.
    set (ious := map (fun b => iou a b) (b0 :: bs)) in *.
    destruct (np_argmax_spec ious ltac:(discriminate)) as (Hk & _).
    unfold ious in Hk at 1. rewrite nth_error_map in Hk.
    destruct (nth_error (b0 :: bs) (np_argmax ious)) as [best |] eqn:Hbest;
      [| discriminate].
    simpl in Hk. injection Hk as Hk.
    rewrite (nth_error_nth _ _ zero_box Hbest) in Htb.
    exists best. split; [exact Htb |]. split; [exact (nth_error_In _ _ Hbest) |].
    rewrite Hk. exact Htrue.
Qed.

(** X14: whatever the ground-truth boxes, the sampler run on the grid, as
    [__getitem__] runs it, returns a sample without repetition, of at most [N]
    indices, each below the number of anchors and each the index of a positive
    or of a negative anchor. *)
Theorem sample_without_repetition (self : Config) (iou : box -> box -> Q) (rng : Type)
        (permutation : rng -> list nat -> list nat * rng)
        (g : rng) (bboxes : list box) :
  (forall g l, Permutation (fst (permutation g l)) l) ->
  NEGATIVE_THRESHOLD self <= POSITIVE_THRESHOLD self ->
  let anchors := get_image_anchors self in
  let r := get_positive_negative_anchors self iou anchors bboxes in
  let size := (NUMBER_ANCHORS_WIDE self * NUMBER_ANCHORS_HEIGHT self
               * anchor_number self)%nat in
  exists selected_indices positive_indices g',
    get_selected_indices_sample self rng permutation g (seq 0 size) (snd (fst r)) (snd r)
    = Some (selected_indices, positive_indices, g')
    /\ NoDup selected_indices
    /\ (length selected_indices <= ANCHOR_SAMPLING_SIZE self)%nat
    /\ forall k, In k selected_indices ->
                 (k < size)%nat
                 /\ (nth_error (flatten3 (snd (fst r))) k = Some true
                     \/ nth_error (flatten3 (snd r)) k = Some true).
Proof.
  intros Hperm Hthr anchors r size.
  destruct (masks_length self iou bboxes) as [Lp Ln]. fold anchors r in Lp, Ln.
  assert (La : length (flatten3 anchors) = size)
    by apply length_flatten3_get_image_anchors.
  rewrite La in Lp, Ln.
  assert (Hex : forall k, ~ (nth_error (flatten3 (snd (fst r))) k = Some true
                             /\ nth_error (flatten3 (snd r)) k = Some true)).
  { intro k. pose proof (masks_exclusive_flat self iou anchors bboxes k Hthr) as H.
    fold r in H. destruct r as [[tb pos] neg]. exact H. }
  assert (Li : length (seq 0 size) = size) by apply length_seq.
  rewrite <- Li in Lp, Ln.
  destruct (sampler_run self rng permutation Hperm g (seq 0 size) _ _ Lp Ln)
    as (pp & pn & g1 & g2 & _ & _ & Hpp & Hpn & Hrun).
  set (N := ANCHOR_SAMPLING_SIZE self) in *.
  set (rp := firstn (N / 2) pp) in *.
  set (rn := firstn (N - length rp) pn) in *.
  assert (Hinp : forall x, In x rp -> In x (compress (flatten3 (snd (fst r))) (seq 0 size))).
  { intros x Hx. apply (Permutation_in _ Hpp). exact (In_firstn _ _ _ Hx). }
  assert (Hinn : forall x, In x rn -> In x (compress (flatten3 (snd r)) (seq 0 size))).
  { intros x Hx. apply (Permutation_in _ Hpn). exact (In_firstn _ _ _ Hx). }
  do 3 eexists. split; [exact Hrun |]. split; [| split].
  - apply NoDup_app.
    + apply NoDup_firstn. apply (Permutation_NoDup (Permutation_sym Hpp)).
      apply NoDup_compress, seq_NoDup.
    + apply NoDup_firstn. apply (Permutation_NoDup (Permutation_sym Hpn)).
      apply NoDup_compress, seq_NoDup.
    + intros x Hx1 Hx2.
      exact (compress_disjoint _ _ (seq 0 size) x (seq_NoDup _ _) Hex
               (Hinp x Hx1) (Hinn x Hx2)).
  - rewrite length_app.
    assert (L1 : (length rp <= N / 2)%nat) by apply firstn_le_length.
    assert (L2 : (length rn <= N - length rp)%nat) by apply firstn_le_length.
    assert (Hhalf : (N / 2 <= N)%nat) by (apply Nat.Div0.div_le_upper_bound; lia).
    lia.
  - intros k Hk. apply in_app_or in Hk. destruct Hk as [Hk | Hk].
    + apply Hinp, In_compress_seq in Hk. tauto.
    + apply Hinn, In_compress_seq in Hk. tauto.
Qed.

(** * The further properties at concrete inputs *)

Lemma flat_index_addresses_cell_witness :
  let r := get_positive_negative_anchors ToothImageDataset IoU
             (get_image_anchors ToothImageDataset) [box_on_cell 10 10] in
  (4643 < 50 * 25 * 9)%nat
  /\ 4643%nat = ((20 * 25 + 15) * 9 + 8)%nat
  /\ nth_error (flatten3 (snd (fst r))) 4643 = t3_get (snd (fst r)) 20 15 8.
Proof.
  cbv zeta.
  assert (Hk : (4643 < NUMBER_ANCHORS_WIDE ToothImageDataset
                       * NUMBER_ANCHORS_HEIGHT ToothImageDataset
                       * anchor_number ToothImageDataset)%nat)
    by (apply Nat.ltb_lt; vm_compute; reflexivity).
  destruct (flat_index_addresses_cell ToothImageDataset IoU [box_on_cell 10 10] 4643 Hk)
    as (_ & _ & _ & Ek & _ & Hp & _).
  split; [exact Hk |]. split; [exact Ek | exact Hp].
Defined.

Lemma matcher_output_shapes_witness :
  let '(truth_bbox, positives, negatives) :=
    get_positive_negative_anchors ToothImageDataset IoU
      (get_image_anchors ToothImageDataset) sample_bboxes in
  has_shape3 positives 50 25 9
  /\ has_shape3 negatives 50 25 9
  /\ (sample_bboxes = [] -> truth_bbox = [])
  /\ (sample_bboxes <> [] -> has_shape3 truth_bbox 50 25 9)
  /\ length (flatten3 positives) = (50 * 25 * 9)%nat
  /\ length (flatten3 negatives) = (50 * 25 * 9)%nat.
Proof.
  exact (matcher_output_shapes ToothImageDataset IoU (get_image_anchors ToothImageDataset)
           sample_bboxes (get_image_anchors_shape ToothImageDataset)).
Defined.

Lemma labels_by_boxes_witness :
  exists a,
    t3_get (get_image_anchors ToothImageDataset) 10 10 8 = Some a
    /\ let bboxes := [box_on_cell 30 5; box_on_cell 11 10] in
       let '(_, positives, negatives) :=
         get_positive_negative_anchors ToothImageDataset IoU
           (get_image_anchors ToothImageDataset) bboxes in
       (t3_get positives 10 10 8 = Some true
        <-> exists b, In b bboxes /\ POSITIVE_THRESHOLD ToothImageDataset < IoU a b)
       /\ (t3_get negatives 10 10 8 = Some true
           <-> forall b, In b bboxes -> IoU a b < NEGATIVE_THRESHOLD ToothImageDataset).
Proof.
  eexists. split; [vm_compute; reflexivity |].
  cbv zeta.
  apply (labels_by_boxes ToothImageDataset IoU).
  - apply get_image_anchors_shape.
  - discriminate.
  - vm_compute. reflexivity.
Defined.

Lemma labels_order_independent_witness :
  let anchors := get_image_anchors ToothImageDataset in
  snd (fst (get_positive_negative_anchors ToothImageDataset IoU anchors
              [box_on_cell 30 5; box_on_cell 11 10]))
  = snd (fst (get_positive_negative_anchors ToothImageDataset IoU anchors
                [box_on_cell 11 10; box_on_cell 30 5]))
  /\ snd (get_positive_negative_anchors ToothImageDataset IoU anchors
            [box_on_cell 30 5; box_on_cell 11 10])
     = snd (get_positive_negative_anchors ToothImageDataset IoU anchors
              [box_on_cell 11 10; box_on_cell 30 5]).
Proof.
  apply (labels_order_independent ToothImageDataset IoU).
  - apply get_image_anchors_shape.
  - apply perm_swap.
Defined.

Lemma positive_indices_sorted_witness :
  exists selected_indices positive_indices g',
    get_selected_indices_sample ToothImageDataset nat rotate_permutation 1%nat
      (seq 0 6) sample_positives sample_negatives
    = Some (selected_indices, positive_indices, g')
    /\ StronglySorted lt positive_indices
    /\ NoDup positive_indices.
Proof.
  exact (positive_indices_sorted ToothImageDataset nat rotate_permutation 1%nat
           sample_positives sample_negatives eq_refl).
Defined.

Lemma scarce_class_sampled_whole_witness :
  exists random_positives random_negatives positive_indices g',
    get_selected_indices_sample ToothImageDataset nat rotate_permutation 1%nat
      (seq 0 6) sample_positives sample_negatives
    = Some (random_positives ++ random_negatives, positive_indices, g')
    /\ Permutation random_positives positive_indices
    /\ Permutation random_negatives (compress (flatten3 sample_negatives) (seq 0 6)).
Proof.
  destruct (scarce_class_sampled_whole ToothImageDataset nat rotate_permutation 1%nat
              (seq 0 6) sample_positives sample_negatives rotate_permutation_ok
              eq_refl eq_refl)
    as (rp & rn & pi & g' & Hrun & Hp & Hn).
  exists rp, rn, pi, g'. split; [exact Hrun |]. split.
  - apply Hp. apply Nat.leb_le. reflexivity.
  - apply Hn. apply Nat.leb_le.
    assert (Lrp : (length rp <= 2)%nat).
    { rewrite (Permutation_length (Hp ltac:(apply Nat.leb_le; reflexivity))).
      assert (E : pi = [0; 4]%nat).
      { vm_compute in Hrun. congruence. }
      rewrite E. simpl. lia. }
    apply Nat.leb_le. change (count_true (flatten3 sample_negatives)) with 3%nat.
    change (ANCHOR_SAMPLING_SIZE ToothImageDataset) with 256%nat. lia.
Defined.

Lemma degenerate_box_targets_witness :
  exists dx dy dh,
    t3_get (parametrize ln_sample [[[mkbox 0 0 10 10]]] [[[mkbox 5 5 5 8]]]) 0 0 0
    = Some [dx; dy; Fin (- FLT_MAX); dh].
Proof.
  destruct (degenerate_box_targets ln_sample [[[mkbox 0 0 10 10]]] [[[mkbox 5 5 5 8]]]
              0 0 0 (mkbox 0 0 10 10) (mkbox 5 5 5 8)
              eq_refl eq_refl eq_refl eq_refl)
    as (dx & dy & dw & dh & Hrow & Hz & _).
  exists dx, dy, dh. rewrite Hrow, (Hz ltac:(reflexivity)). reflexivity.
Defined.

Lemma same_box_zero_target_witness :
  exists dx dy dw dh,
    t3_get (parametrize ln_sample [[[box_on_cell 3 3]]] [[[box_on_cell 3 3]]]) 0 0 0
    = Some [Fin dx; Fin dy; Fin dw; Fin dh]
    /\ dx == 0 /\ dy == 0 /\ dw == 0 /\ dh == 0.
Proof.
  apply (same_box_zero_target ln_sample _ _ 0 0 0 (box_on_cell 3 3)).
  - intros q E. unfold ln_sample. rewrite E. reflexivity.
  - reflexivity.
  - reflexivity.
  - reflexivity.
  - reflexivity.
Defined.


Lemma shape_index_decode_witness :
  nth_error (get_anchor_dimensions ToothImageDataset) 5 = Some (1 # 2, 1).
Proof.
  destruct (shape_index_decode ToothImageDataset 5) as (_ & _ & H).
  - apply Nat.ltb_lt. reflexivity.
  - exact H.
Defined.

Lemma positive_anchor_matched_box_witness :
  exists a,
    t3_get (get_image_anchors ToothImageDataset) 10 10 8 = Some a
    /\ let bboxes := [box_on_cell 30 5; box_on_cell 11 10] in
       let '(truth_bbox, positives, _) :=
         get_positive_negative_anchors ToothImageDataset IoU
           (get_image_anchors ToothImageDataset) bboxes in
       t3_get positives 10 10 8 = Some true
       /\ exists b,
           t3_get truth_bbox 10 10 8 = Some b
           /\ In b bboxes
           /\ POSITIVE_THRESHOLD ToothImageDataset < IoU a b.
Proof.
  eexists. split; [vm_compute; reflexivity |].
  cbv zeta.
  pose proof (positive_anchor_matched_box ToothImageDataset IoU
                (get_image_anchors ToothImageDataset)
                [box_on_cell 30 5; box_on_cell 11 10] 10 10 8 _
                (get_image_anchors_shape ToothImageDataset)
                ltac:(vm_compute; reflexivity)) as T.
  assert (Hpos : t3_get (snd (fst (get_positive_negative_anchors ToothImageDataset IoU
                                     (get_image_anchors ToothImageDataset)
                                     [box_on_cell 30 5; box_on_cell 11 10]))) 10 10 8
                 = Some true) by (vm_compute; reflexivity).
  destruct (get_positive_negative_anchors ToothImageDataset IoU
              (get_image_anchors ToothImageDataset)
              [box_on_cell 30 5; box_on_cell 11 10]) as [[tb pos] neg].
  cbn [fst snd] in Hpos.
  split; [exact Hpos |]. apply T; [exact Hpos | discriminate].
Defined.

Lemma sample_without_repetition_witness :
  let r := get_positive_negative_anchors ToothImageDataset IoU
             (get_image_anchors ToothImageDataset) [box_on_cell 10 10] in
  exists selected_indices positive_indices g',
    get_selected_indices_sample ToothImageDataset nat rotate_permutation 5%nat
      (seq 0 (50 * 25 * 9)) (snd (fst r)) (snd r)
    = Some (selected_indices, positive_indices, g')
    /\ NoDup selected_indices
    /\ (length selected_indices <= 256)%nat.
Proof.
  cbv zeta.
  destruct (sample_without_repetition ToothImageDataset IoU nat rotate_permutation 5%nat
              [box_on_cell 10 10] rotate_permutation_ok ltac:(discriminate))
    as (sel & pi & g' & Hrun & Hnd & Hlen & _).
  exists sel, pi, g'. split; [exact Hrun |]. split; [exact Hnd | exact Hlen].
Defined.
